(** * fooof: model functions (funcs.py) and group fitting (group.py)

    A shallow embedding of the two modules of the repository.

    - [Np] is the numeric layer the code computes with: numpy's float with its
      special values, and the few ufuncs the sources call.
    - [Funcs] embeds [fooof/funcs.py].
    - [Group] embeds [fooof/group.py]: the [FOOOFGroup] methods as
      computations in a state-and-exception monad over the object's fields.
*)

From Stdlib Require Import String Ascii.
From Stdlib Require Import Reals Lra List Lia Bool Arith ZArith.
Import ListNotations.

(** ** Python exceptions *)

Inductive exn : Type :=
| ValueError
| IndexError
| AttributeError
| KeyError
| TypeError
| RuntimeError
| OSError
| UnboundLocalError
| JSONDecodeError.

Definition exn_eqb (a b : exn) : bool :=
  match a, b with
  | ValueError, ValueError | IndexError, IndexError
  | AttributeError, AttributeError | KeyError, KeyError
  | TypeError, TypeError | RuntimeError, RuntimeError
  | OSError, OSError | UnboundLocalError, UnboundLocalError
  | JSONDecodeError, JSONDecodeError => true
  | _, _ => false
  end.

(** A pure call either returns a value or raises. *)
Inductive result (A : Type) : Type :=
| Ok (a : A)
| Raise (e : exn).
Arguments Ok {A} a.
Arguments Raise {A} e.

Definition rbind {A B} (m : result A) (k : A -> result B) : result B :=
  match m with
  | Ok a => k a
  | Raise e => Raise e
  end.

(** [seq[i]] on a Python tuple or list, for a non-negative index. *)
Definition getitem {A} (l : list A) (i : nat) : result A :=
  match nth_error l i with
  | Some a => Ok a
  | None => Raise IndexError
  end.

(** [range(start, stop, step)] for a positive step. *)
Fixpoint range_from (fuel start stop step : nat) : list nat :=
  match fuel with
  | O => []
  | S fuel' =>
      if start <? stop then start :: range_from fuel' (start + step) stop step
      else []
  end.

Definition py_range (start stop step : nat) : list nat :=
  range_from stop start stop step.

(** ** numpy floats

    A float is a real number or one of the three special values.  The model
    is exact: it has no rounding, no overflow and no underflow, and zero
    carries no sign (a zero divisor acts as +0).  A value that is finite
    here may therefore be an infinity, a zero or a nan in float64: where a
    statement below gives a value, it gives it in this exact arithmetic.  What it keeps is the behaviour the
    properties below turn on: numpy's ufuncs are total, and where the mathematical function
    is undefined they return [nan] or an infinity (with a warning, under
    numpy's default error state) instead of raising. *)

Module Np.

Local Open Scope R_scope.

Inductive npfloat : Type :=
| Fin (r : R)
| PInf
| NInf
| NaN.

Inductive sign : Type := Neg | Zero | Pos.

Definition Rsign (r : R) : sign :=
  match total_order_T r 0 with
  | inleft (left _) => Neg
  | inleft (right _) => Zero
  | inright _ => Pos
  end.

Definition isfinite (v : npfloat) : bool :=
  match v with Fin _ => true | _ => false end.

Definition np_neg (v : npfloat) : npfloat :=
  match v with
  | Fin r => Fin (- r)
  | PInf => NInf
  | NInf => PInf
  | NaN => NaN
  end.

Definition np_add (a b : npfloat) : npfloat :=
  match a, b with
  | NaN, _ | _, NaN => NaN
  | Fin x, Fin y => Fin (x + y)
  | PInf, NInf | NInf, PInf => NaN
  | PInf, _ | _, PInf => PInf
  | NInf, _ | _, NInf => NInf
  end.

Definition np_sub (a b : npfloat) : npfloat := np_add a (np_neg b).

Definition inf_of (s : sign) : npfloat :=
  match s with Pos => PInf | Neg => NInf | Zero => NaN end.

Definition sign_of (v : npfloat) : sign :=
  match v with
  | Fin r => Rsign r
  | PInf => Pos
  | NInf => Neg
  | NaN => Zero
  end.

Definition sign_mul (s t : sign) : sign :=
  match s, t with
  | Zero, _ | _, Zero => Zero
  | Pos, Pos | Neg, Neg => Pos
  | _, _ => Neg
  end.

Definition np_mul (a b : npfloat) : npfloat :=
  match a, b with
  | NaN, _ | _, NaN => NaN
  | Fin x, Fin y => Fin (x * y)
  | _, _ => inf_of (sign_mul (sign_of a) (sign_of b))
  end.

Definition np_div (a b : npfloat) : npfloat :=
  match a, b with
  | NaN, _ | _, NaN => NaN
  | Fin x, Fin y =>
      match Rsign y with
      | Zero => inf_of (Rsign x)
      | _ => Fin (x / y)
      end
  | Fin _, _ => Fin 0
  | _, Fin y =>
      match Rsign y with
      | Neg => np_neg a
      | _ => a
      end
  | _, _ => NaN
  end.

(** [v**2]: numpy squares the operand. *)
Definition np_square (v : npfloat) : npfloat := np_mul v v.

Definition np_exp (v : npfloat) : npfloat :=
  match v with
  | Fin r => Fin (exp r)
  | PInf => PInf
  | NInf => Fin 0
  | NaN => NaN
  end.

(** [np.log10]: [-inf] at zero and [nan] below it; no exception. *)
Definition np_log10 (v : npfloat) : npfloat :=
  match v with
  | Fin r =>
      match Rsign r with
      | Pos => Fin (ln r / ln 10)
      | Zero => NInf
      | Neg => NaN
      end
  | PInf => PInf
  | NInf => NaN
  | NaN => NaN
  end.

Definition is_integer (r : R) : bool :=
  if Req_dec_T (IZR (Int_part r)) r then true else false.

Definition is_odd_integer (r : R) : bool :=
  is_integer r && Z.odd (Int_part r).

(** How [|x|] compares with 1, as the sign of [|x| - 1]. *)
Definition abs_vs_one (x : R) : sign := Rsign (Rabs x - 1).

(** [x ** y] on floats, with C's [pow] special cases. *)
Definition np_power (x y : npfloat) : npfloat :=
  match y with
  | NaN =>
      match x with
      | Fin xr => if Req_dec_T xr 1 then Fin 1 else NaN
      | _ => NaN
      end
  | Fin yr =>
      match Rsign yr with
      | Zero => Fin 1
      | sy =>
          match x with
          | NaN => NaN
          | PInf => match sy with Pos => PInf | _ => Fin 0 end
          | NInf =>
              match sy with
              | Pos => if is_odd_integer yr then NInf else PInf
              | _ => Fin 0
              end
          | Fin xr =>
              match Rsign xr with
              | Pos => Fin (Rpower xr yr)
              | Zero => match sy with Pos => Fin 0 | _ => PInf end
              | Neg =>
                  if is_integer yr then Fin (powerRZ xr (Int_part yr))
                  else NaN
              end
          end
      end
  | PInf =>
      match x with
      | NaN => NaN
      | PInf | NInf => PInf
      | Fin xr =>
          match abs_vs_one xr with
          | Neg => Fin 0
          | Zero => Fin 1
          | Pos => PInf
          end
      end
  | NInf =>
      match x with
      | NaN => NaN
      | PInf | NInf => Fin 0
      | Fin xr =>
          match abs_vs_one xr with
          | Neg => PInf
          | Zero => Fin 1
          | Pos => Fin 0
          end
      end
  end.

(** *** 1-d arrays and broadcasting *)

Definition ndarray : Type := list npfloat.

Definition zeros_like (x : ndarray) : ndarray := map (fun _ => Fin 0) x.

(** array (op) scalar and scalar (op) array apply the scalar to every
    element. *)
Definition arr_sub_s (x : ndarray) (s : npfloat) : ndarray :=
  map (fun v => np_sub v s) x.
Definition arr_div_s (x : ndarray) (s : npfloat) : ndarray :=
  map (fun v => np_div v s) x.
Definition arr_pow_s (x : ndarray) (s : npfloat) : ndarray :=
  map (fun v => np_power v s) x.
Definition s_add_arr (s : npfloat) (x : ndarray) : ndarray :=
  map (fun v => np_add s v) x.
Definition s_sub_arr (s : npfloat) (x : ndarray) : ndarray :=
  map (fun v => np_sub s v) x.
Definition s_mul_arr (s : npfloat) (x : ndarray) : ndarray :=
  map (fun v => np_mul s v) x.
Definition arr_mul_s (x : ndarray) (s : npfloat) : ndarray :=
  map (fun v => np_mul v s) x.
Definition arr_add_s (x : ndarray) (s : npfloat) : ndarray :=
  map (fun v => np_add v s) x.
Definition arr_neg (x : ndarray) : ndarray := map np_neg x.
Definition arr_square (x : ndarray) : ndarray := map np_square x.
Definition arr_exp (x : ndarray) : ndarray := map np_exp x.
Definition arr_log10 (x : ndarray) : ndarray := map np_log10 x.

(** array + array, elementwise.  Both operands of every use below are
    obtained from the same [x] by elementwise maps, so the shapes agree. *)
Fixpoint arr_add (x y : ndarray) : ndarray :=
  match x, y with
  | a :: x', b :: y' => np_add a b :: arr_add x' y'
  | _, _ => []
  end.

End Np.

(** ** funcs.py *)

Module Funcs.

Import Np.

(** One pass of the loop body of [gaussian_function]:
    [y + amp * np.exp(-(x-ctr)**2 / (2*wid**2))]. *)
Definition gaussian_step (x y : ndarray) (ctr amp wid : npfloat) : ndarray :=
  arr_add y
    (s_mul_arr amp
       (arr_exp
          (arr_div_s (arr_neg (arr_square (arr_sub_s x ctr)))
             (np_mul (Fin 2) (np_square wid))))).

Fixpoint gaussian_loop (idxs : list nat) (x : ndarray)
    (params : list npfloat) (y : ndarray) : result ndarray :=
  match idxs with
  | [] => Ok y
  | i :: rest =>
      rbind (getitem params i) (fun ctr =>
      rbind (getitem params (i + 1)) (fun amp =>
      rbind (getitem params (i + 2)) (fun wid =>
      gaussian_loop rest x params (gaussian_step x y ctr amp wid))))
  end.

Definition gaussian_function (x : ndarray) (params : list npfloat)
    : result ndarray :=
  let y := zeros_like x in
  gaussian_loop (py_range 0 (length params) 3) x params y.

Definition linear_function (x : ndarray) (params : list npfloat)
    : result ndarray :=
  let y := zeros_like x in
  rbind (getitem params 0) (fun offset =>
  rbind (getitem params 1) (fun slope =>
  Ok (arr_add (arr_add_s y offset) (arr_mul_s x slope)))).

Definition quadratic_function (x : ndarray) (params : list npfloat)
    : result ndarray :=
  let y := zeros_like x in
  rbind (getitem params 0) (fun offset =>
  rbind (getitem params 1) (fun slope =>
  rbind (getitem params 2) (fun curve =>
  Ok (arr_add
        (arr_add (arr_add_s y offset) (arr_mul_s x slope))
        (arr_mul_s (arr_square x) curve))))).

(** [a, b, c = params] raises [ValueError] unless there are exactly three
    parameters; nothing else in the body can raise. *)
Definition loglorentzian_function (x : ndarray) (params : list npfloat)
    : result ndarray :=
  let y := zeros_like x in
  match params with
  | [a; b; c] =>
      let y := s_sub_arr (np_log10 a) (arr_log10 (s_add_arr b (arr_pow_s x c))) in
      Ok y
  | _ => Raise ValueError
  end.

(** *** The models in the spec's words

    "sums, over groups of 3 consecutive parameters (center, amplitude,
    width), amp·exp(−(x−center)²/(2·width²))". *)

Definition peak : Type := (npfloat * npfloat * npfloat)%type.

(** The parameter tuple made of consecutive (center, amplitude, width)
    triples. *)
Definition peak_params (peaks : list peak) : list npfloat :=
  flat_map (fun p : peak => let '(ctr, amp, wid) := p in [ctr; amp; wid]) peaks.

Definition gaussian_term (p : peak) (v : npfloat) : npfloat :=
  let '(ctr, amp, wid) := p in
  np_mul amp
    (np_exp (np_div (np_neg (np_square (np_sub v ctr)))
                    (np_mul (Fin 2) (np_square wid)))).

Definition gaussian_sum (peaks : list peak) (v : npfloat) : npfloat :=
  fold_right (fun p acc => np_add (gaussian_term p v) acc) (Fin 0) peaks.

(** The value the loop of [gaussian_function] holds at one element after
    it has gone through [peaks], starting from [acc]. *)
Definition running_sum (peaks : list peak) (acc v : npfloat) : npfloat :=
  fold_left (fun s p => np_add s (gaussian_term p v)) peaks acc.

(** "y = offset − log10(knee + x^slope)", the offset taken as it is. *)
Definition knee_model_spec (offset knee slope v : npfloat) : npfloat :=
  np_sub offset (np_log10 (np_add knee (np_power v slope))).

(** The same with the first parameter entering through its logarithm, as
    in the docstring's [y = a * (1/(b + x**c))] taken to the log domain. *)
Definition knee_model_log (a b c v : npfloat) : npfloat :=
  np_sub (np_log10 a) (np_log10 (np_add b (np_power v c))).

(** A log argument that is zero or negative. *)
Definition nonpositive (v : npfloat) : Prop :=
  match v with
  | Fin r => (r <= 0)%R
  | NInf => True
  | PInf | NaN => False
  end.

End Funcs.

(** ** group.py *)

Module Group.

(** A call that works on a mutable object: it returns or raises, and in
    both cases leaves the object in some state.  Python mutates in place, so
    what was done before an exception stays done. *)
Inductive call (S A : Type) : Type :=
| Done (a : A) (s : S)
| Fail (e : exn) (s : S).
Arguments Done {S A} a s.
Arguments Fail {S A} e s.

(** The state a call leaves the object in, returned or raised. *)
Definition state_of {S A} (c : call S A) : S :=
  match c with
  | Done _ s => s
  | Fail _ s => s
  end.

(** Modelled from the spec: the [FOOOFResult] record is declared outside
    src/.  The spec's Fit Result holds the background parameters, the peak
    parameters (one (center, amplitude, width) row per peak, zero or more),
    the error and r^2; group.py reads exactly these four attributes, by the
    names used here. *)
Record FOOOFResult (F : Type) : Type := mkFOOOFResult {
  background_params : list F;
  oscillations_params : list (F * F * F);
  r2 : F;
  error : F
}.
Arguments mkFOOOFResult {F} _ _ _ _.
Arguments background_params {F} _.
Arguments oscillations_params {F} _.
Arguments r2 {F} _.
Arguments error {F} _.

(** The base class [FOOOF] and the builtins [open]/[close] are not part of
    these sources.  group.py only calls them, so they enter as an interface:
    [FOOOF] is the attributes of the base object, [World] whatever lies
    outside the object (the file system, with what is buffered for it), and
    each method may raise.  Closing comes in two kinds: [py_close] closes a
    file opened for reading, which holds nothing to write and is taken to
    succeed; [py_flush_close] closes a file opened for writing, which
    flushes what the saves have buffered and may raise.
    The fitter's configuration is fixed at construction, so it belongs to
    the instance.  [F] is the float type of the stored values; group.py
    moves floats around and never computes with them. *)
Class FOOOF_base (F : Type) : Type := {
  FOOOF : Type;
  World : Type;
  file : Type;
  fit : list F -> list F -> option (F * F) -> FOOOF -> call FOOOF unit;
  get_results : FOOOF -> FOOOFResult F;
  _reset_dat : bool -> FOOOF -> FOOOF;
  save : file -> bool -> FOOOF -> World -> call World unit;
  load : file -> FOOOF * World -> call (FOOOF * World) unit;
  py_open : string -> string -> World -> call World file;
  py_close : file -> World -> World;
  py_flush_close : file -> World -> call World unit
}.

(** [os.path.join] of two components (posixpath). *)
Definition starts_with_sep (s : string) : bool :=
  match s with
  | String c _ => Ascii.eqb c "/"%char
  | EmptyString => false
  end.

Fixpoint ends_with_sep (s : string) : bool :=
  match s with
  | EmptyString => false
  | String c EmptyString => Ascii.eqb c "/"%char
  | String _ s' => ends_with_sep s'
  end.

Definition os_path_join (a b : string) : string :=
  if starts_with_sep b then b
  else if (String.eqb a EmptyString || ends_with_sep a)%bool then (a ++ b)%string
  else (a ++ "/" ++ b)%string.

(** *** numpy

    The sources do not say which numpy they run on, and one behaviour that
    [get_all_data] meets differs between versions: [np.array] of a list of
    arrays whose shapes differ builds a 1-d array of the separate arrays
    before numpy 1.24 ([Numpy_legacy]) and raises ValueError from 1.24 on
    ([Numpy_strict]).  The version is a parameter of what depends on it. *)

Inductive numpy_version : Type :=
| Numpy_legacy
| Numpy_strict.

(** *** Values that [getattr] and numpy hand back *)

Inductive pyval (F : Type) : Type :=
| PyFloat (v : F)
| Arr1 (a : list F)
| Arr2 (ncols : nat) (rows : list (list F)).
Arguments PyFloat {F} v.
Arguments Arr1 {F} a.
Arguments Arr2 {F} ncols rows.

Section Methods.

Context {F : Type} {B : FOOOF_base F}.

(** *** The object and the monad of its methods

    [self_base] holds the attributes inherited from [FOOOF];
    [group_results] is the attribute this class adds.  [fit_log] is ghost
    state: the spectra passed to [self.fit] so far, kept to state which fits
    ran. *)
Record state : Type := mkState {
  self_base : FOOOF;
  group_results : list (FOOOFResult F);
  world : World;
  fit_log : list (list F)
}.

Definition M (A : Type) : Type := state -> call state A.

Definition ret {A} (a : A) : M A := fun st => Done a st.

Definition bind {A C} (m : M A) (k : A -> M C) : M C :=
  fun st =>
    match m st with
    | Done a st' => k a st'
    | Fail e st' => Fail e st'
    end.

Definition raise {A} (e : exn) : M A := fun st => Fail e st.

(** [for x in xs: body(x)] *)
Fixpoint for_each {X} (xs : list X) (body : X -> M unit) : M unit :=
  match xs with
  | [] => ret tt
  | x :: xs' => bind (body x) (fun _ => for_each xs' body)
  end.

Definition set_base (s : FOOOF) (st : state) : state :=
  mkState s (group_results st) (world st) (fit_log st).
Definition set_group_results (rs : list (FOOOFResult F)) (st : state) : state :=
  mkState (self_base st) rs (world st) (fit_log st).
Definition set_world (w : World) (st : state) : state :=
  mkState (self_base st) (group_results st) w (fit_log st).
Definition log_fit (psd : list F) (st : state) : state :=
  mkState (self_base st) (group_results st) (world st) (fit_log st ++ [psd]).

(** Calls into the base class and the builtins, lifted to [M]. *)
Definition self_fit (freqs psd : list F) (freq_range : option (F * F)) : M unit :=
  fun st =>
    match fit freqs psd freq_range (self_base st) with
    | Done _ s => Done tt (log_fit psd (set_base s st))
    | Fail e s => Fail e (log_fit psd (set_base s st))
    end.

Definition self_get_results : M (FOOOFResult F) :=
  fun st => Done (get_results (self_base st)) st.

Definition self_reset_dat (clear_freqs : bool) : M unit :=
  fun st => Done tt (set_base (_reset_dat clear_freqs (self_base st)) st).

Definition self_save (f_obj : file) (save_results : bool) : M unit :=
  fun st =>
    match save f_obj save_results (self_base st) (world st) with
    | Done _ w => Done tt (set_world w st)
    | Fail e w => Fail e (set_world w st)
    end.

Definition self_load (f_obj : file) : M unit :=
  fun st =>
    match load f_obj (self_base st, world st) with
    | Done _ (s, w) => Done tt (set_world w (set_base s st))
    | Fail e (s, w) => Fail e (set_world w (set_base s st))
    end.

Definition open_ (path mode : string) : M file :=
  fun st =>
    match py_open path mode (world st) with
    | Done f w => Done f (set_world w st)
    | Fail e w => Fail e (set_world w st)
    end.

Definition close_ (f_obj : file) : state -> state :=
  fun st => set_world (py_close f_obj (world st)) st.

Definition flush_close_ (f_obj : file) : M unit :=
  fun st =>
    match py_flush_close f_obj (world st) with
    | Done _ w => Done tt (set_world w st)
    | Fail e w => Fail e (set_world w st)
    end.

(** [self.group_results.append(r)] *)
Definition group_results_append (r : FOOOFResult F) : M unit :=
  fun st => Done tt (set_group_results (group_results st ++ [r]) st).

(** A local that is bound only on one branch: reading it unbound raises. *)
Definition local {A} (v : option A) : M A :=
  match v with
  | Some a => ret a
  | None => raise UnboundLocalError
  end.

(** *** Methods of [FOOOFGroup] *)

Definition _reset_group_results : M unit :=
  fun st => Done tt (set_group_results [] st).

(** The body of the loop of [fit_group]. *)
Definition fit_group_body (freqs : list F) (freq_range : option (F * F))
    (save_dat : bool) (f_obj : option file) (psd : list F) : M unit :=
  bind (self_fit freqs psd freq_range) (fun _ =>
  bind self_get_results (fun r =>
  bind (group_results_append r) (fun _ =>
  if save_dat then bind (local f_obj) (fun f => self_save f true)
  else ret tt))).

(** The statements of [fit_group] before its loop. *)
Definition fit_group_enter (save_dat : bool) (file_name file_path : string)
    : M (option file) :=
  bind _reset_group_results (fun _ =>
  if save_dat then
    bind (open_ (os_path_join file_path (file_name ++ ".json")%string) "w"%string)
      (fun f => ret (Some f))
  else ret None).

Definition fit_group (freqs : list F) (psds : list (list F))
    (freq_range : option (F * F)) (save_dat : bool)
    (file_name file_path : string) : M unit :=
  bind (fit_group_enter save_dat file_name file_path) (fun f_obj =>
  bind (for_each psds (fit_group_body freqs freq_range save_dat f_obj)) (fun _ =>
  bind (self_reset_dat false) (fun _ =>
  if save_dat then bind (local f_obj) flush_close_
  else ret tt))).

Definition get_group_results : M (list (FOOOFResult F)) :=
  fun st => Done (group_results st) st.

(** [getattr(dat, name)] on a result record.  Names other than the four
    data fields are not attributes of the model. *)
Definition row3 (p : F * F * F) : list F :=
  let '(c, a, w) := p in [c; a; w].

Definition getattr (dat : FOOOFResult F) (name : string) : result (pyval F) :=
  if String.eqb name "background_params"%string then Ok (Arr1 (background_params dat))
  else if String.eqb name "oscillations_params"%string then
    Ok (Arr2 3 (map row3 (oscillations_params dat)))
  else if String.eqb name "r2"%string then Ok (PyFloat (r2 dat))
  else if String.eqb name "error"%string then Ok (PyFloat (error dat))
  else Raise AttributeError.

(** The list comprehension: it stops at the first [getattr] that raises. *)
Fixpoint comprehension {X Y} (f : X -> result Y) (xs : list X) : result (list Y) :=
  match xs with
  | [] => Ok []
  | x :: xs' =>
      rbind (f x) (fun y => rbind (comprehension f xs') (fun ys => Ok (y :: ys)))
  end.

Definition is_ndarray (v : pyval F) : bool :=
  match v with PyFloat _ => false | _ => true end.

Definition ndim (v : pyval F) : nat :=
  match v with PyFloat _ => 0 | Arr1 _ => 1 | Arr2 _ _ => 2 end.

(** [arr.reshape(1, len(arr))] on a 1-d array. *)
Definition reshape_row (v : pyval F) : pyval F :=
  match v with
  | Arr1 a => Arr2 (List.length a) [a]
  | _ => v
  end.

(** [np.concatenate(arrs, 0)] on 2-d arrays: the rows, one block after the
    other.  It raises on an empty list, on an item that is not 2-d and on
    blocks whose row lengths differ. *)
Fixpoint concat_rows (ncols : nat) (arrs : list (pyval F)) : result (list (list F)) :=
  match arrs with
  | [] => Ok []
  | Arr2 c rows :: rest =>
      if c =? ncols then
        rbind (concat_rows ncols rest) (fun rows' => Ok (rows ++ rows'))
      else Raise ValueError
  | _ :: _ => Raise ValueError
  end.

Definition np_concatenate0 (arrs : list (pyval F)) : result (pyval F) :=
  match arrs with
  | Arr2 c _ :: _ => rbind (concat_rows c arrs) (fun rows => Ok (Arr2 c rows))
  | _ => Raise ValueError
  end.

(** [np.array] of a list of floats is a 1-d array. *)
Fixpoint floats_of (items : list (pyval F)) : result (list F) :=
  match items with
  | [] => Ok []
  | PyFloat v :: rest => rbind (floats_of rest) (fun vs => Ok (v :: vs))
  | _ :: _ => Raise ValueError
  end.

(** [out[:, ind]]: a column of a 2-d array; negative indices count from the
    end. *)
Definition column_index (ncols : nat) (ind : Z) : result nat :=
  if (0 <=? ind)%Z && (ind <? Z.of_nat ncols)%Z then Ok (Z.to_nat ind)
  else if (ind <? 0)%Z && (- Z.of_nat ncols <=? ind)%Z then
    Ok (Z.to_nat (Z.of_nat ncols + ind))
  else Raise IndexError.

Definition take_column (out : pyval F) (ind : Z) : result (pyval F) :=
  match out with
  | Arr2 c rows =>
      rbind (column_index c ind) (fun j =>
      rbind (comprehension (fun row => getitem row j) rows) (fun col =>
      Ok (Arr1 col)))
  | _ => Raise IndexError
  end.

(** The shape of a value, as numpy sees it. *)
Definition shape (v : pyval F) : list nat :=
  match v with
  | PyFloat _ => []
  | Arr1 a => [List.length a]
  | Arr2 c rows => [List.length rows; c]
  end.

Fixpoint shape_eqb (a b : list nat) : bool :=
  match a, b with
  | [], [] => true
  | m :: a', n :: b' => (m =? n) && shape_eqb a' b'
  | _, _ => false
  end.

(** [np.array] of the list of extracted values.  The result is an array
    whose items along the first axis are those values, so it is carried as
    the list of its items.  Values of one shape always make an array (1-d
    for floats, 2-d or 3-d for arrays).  Arrays of different shapes make "a
    list of separate arrays", in the words of the source's comment, under
    [Numpy_legacy], and raise ValueError under [Numpy_strict]. *)
Definition np_array (np : numpy_version) (items : list (pyval F))
    : result (list (pyval F)) :=
  match items with
  | [] => Ok []
  | v :: rest =>
      if forallb (fun u => shape_eqb (shape u) (shape v)) rest then Ok items
      else
        match np with
        | Numpy_legacy => Ok items
        | Numpy_strict => Raise ValueError
        end
  end.

(** [get_all_data], under the numpy [np]. *)
Definition get_all_data (np : numpy_version) (st : state) (name : string)
    (ind : option Z) : result (pyval F) :=
  rbind (comprehension (fun dat => getattr dat name) (group_results st)) (fun items =>
  rbind (np_array np items) (fun out =>
  rbind (getitem out 0) (fun out0 =>
  rbind (if is_ndarray out0 then
           np_concatenate0
             (map (fun arr => if ndim arr =? 1 then reshape_row arr else arr) out)
         else rbind (floats_of out) (fun vs => Ok (Arr1 vs))) (fun out =>
  match ind with
  | Some i => take_column out i
  | None => Ok out
  end)))).

(** The [while True] loop of [load_group_results].  [None] means the fuel
    ran out before the loop ended. *)
Fixpoint load_loop (fuel : nat) (f_obj : file) (st : state)
    : option (call state unit) :=
  match fuel with
  | O => None
  | S fuel' =>
      match bind (self_load f_obj) (fun _ =>
            bind self_get_results group_results_append) st with
      | Done _ st' => load_loop fuel' f_obj st'
      | Fail JSONDecodeError st' => Some (Done tt st')
      | Fail e st' => Some (Fail e st')
      end
  end.

Definition load_group_results (fuel : nat) (file_name file_path : string)
    (st : state) : option (call state unit) :=
  match bind _reset_group_results (fun _ =>
        open_ (os_path_join file_path (file_name ++ ".json")%string) "r"%string) st with
  | Fail e st0 => Some (Fail e st0)
  | Done f_obj st0 =>
      match load_loop fuel f_obj st0 with
      | None => None
      | Some (Fail e st1) => Some (Fail e (close_ f_obj st1))
      | Some (Done _ st1) => Some (self_reset_dat false (close_ f_obj st1))
      end
  end.

(** *** Notions used in the statements *)

(** The Fit Results of a batch in input order: what [get_results] publishes
    after each fit, the fits run one after the other on the object.  The
    list ends at the first fit that raises. *)
Fixpoint fit_each (freqs : list F) (freq_range : option (F * F)) (s : FOOOF)
    (psds : list (list F)) : list (FOOOFResult F) :=
  match psds with
  | [] => []
  | psd :: rest =>
      match fit freqs psd freq_range s with
      | Done _ s' => get_results s' :: fit_each freqs freq_range s' rest
      | Fail _ _ => []
      end
  end.

(** The base object after the fits of [psds], as far as they succeed. *)
Fixpoint base_after (freqs : list F) (freq_range : option (F * F)) (s : FOOOF)
    (psds : list (list F)) : FOOOF :=
  match psds with
  | [] => s
  | psd :: rest =>
      match fit freqs psd freq_range s with
      | Done _ s' => base_after freqs freq_range s' rest
      | Fail _ s' => s'
      end
  end.

(** Determinism of the single-spectrum fit (spec, section 8): the result a
    successful fit publishes is a function [res] of its input, whatever the
    object held before. *)
Definition fit_result_by_input
    (res : list F -> list F -> option (F * F) -> FOOOFResult F) : Prop :=
  forall freqs psd freq_range s u s',
    fit freqs psd freq_range s = Done u s' ->
    get_results s' = res freqs psd freq_range.

(** A file read through [f_obj] holds complete records, whose results are
    [rs] in file order, and then a record that fails to parse: the loads
    succeed one after the other and the next one raises [JSONDecodeError]. *)
Inductive records_then_garbage (f_obj : file)
    : FOOOF -> World -> list (FOOOFResult F) -> Prop :=
| rtg_garbage (s : FOOOF) (w : World) (sw' : FOOOF * World) :
    load f_obj (s, w) = Fail JSONDecodeError sw' ->
    records_then_garbage f_obj s w []
| rtg_record (s : FOOOF) (w : World) (u : unit) (s1 : FOOOF) (w1 : World)
    (rs : list (FOOOFResult F)) :
    load f_obj (s, w) = Done u (s1, w1) ->
    records_then_garbage f_obj s1 w1 rs ->
    records_then_garbage f_obj s w (get_results s1 :: rs).

(** [np.array] makes an array of the peak parameters of [rs]: always under
    the legacy numpy, and under the strict one when all spectra have the
    same number of peaks. *)
Definition peaks_stackable (np : numpy_version) (rs : list (FOOOFResult F))
    : Prop :=
  np = Numpy_legacy
  \/ exists n, Forall (fun dat => List.length (oscillations_params dat) = n) rs.

(** The same with a load that raises [e] after the complete records; [sw']
    is what that load left of the object and the world. *)
Inductive records_then_error (f_obj : file) (e : exn) (sw' : FOOOF * World)
    : FOOOF -> World -> list (FOOOFResult F) -> Prop :=
| rte_error (s : FOOOF) (w : World) :
    load f_obj (s, w) = Fail e sw' ->
    records_then_error f_obj e sw' s w []
| rte_record (s : FOOOF) (w : World) (u : unit) (s1 : FOOOF) (w1 : World)
    (rs : list (FOOOFResult F)) :
    load f_obj (s, w) = Done u (s1, w1) ->
    records_then_error f_obj e sw' s1 w1 rs ->
    records_then_error f_obj e sw' s w (get_results s1 :: rs).

(** The world after the loop of [fit_group] has gone through [psds] with
    the sink [f_obj] open: each fitted object is saved before the next fit.
    It stops where a fit or a save raises. *)
Fixpoint sink_after (f_obj : file) (freqs : list F)
    (freq_range : option (F * F)) (s : FOOOF) (w : World)
    (psds : list (list F)) : World :=
  match psds with
  | [] => w
  | psd :: rest =>
      match fit freqs psd freq_range s with
      | Done _ s' =>
          match save f_obj true s' w with
          | Done _ w' => sink_after f_obj freqs freq_range s' w' rest
          | Fail _ w' => w'
          end
      | Fail _ _ => w
      end
  end.

End Methods.

End Group.

(** ** A small concrete fitter

    An instance of the base-class interface over integers, to run the group
    methods on concrete data.  A fit rejects a spectrum with a non-positive
    power value or a length that differs from the frequency axis; the sink
    file is a sequence of lines, each a record or garbage ([None]), read
    from a position. *)

Module Demo.

Import Group.

Local Open Scope Z_scope.

Definition demo_result (psd : list Z) : FOOOFResult Z :=
  mkFOOOFResult
    [hd 0 psd; Z.of_nat (List.length psd)]
    (map (fun v => (v, v, 1)) (filter (fun v => 5 <? v) psd))
    1
    (fold_right Z.max 0 psd).

Record demo_world : Type := mkWorld {
  lines : list (option (FOOOFResult Z));
  pos : nat
}.

Definition demo_fit (freqs psd : list Z) (freq_range : option (Z * Z))
    (s : FOOOFResult Z) : call (FOOOFResult Z) unit :=
  if forallb (fun v => 0 <? v) psd && (List.length freqs =? List.length psd)%nat
  then Done tt (demo_result psd)
  else Fail ValueError s.

Definition demo_save (f : unit) (save_results : bool) (s : FOOOFResult Z)
    (w : demo_world) : call demo_world unit :=
  Done tt (mkWorld (lines w ++ [Some s]) (pos w)).

Definition demo_load (f : unit) (sw : FOOOFResult Z * demo_world)
    : call (FOOOFResult Z * demo_world) unit :=
  let '(s, w) := sw in
  match nth_error (lines w) (pos w) with
  | Some (Some r) => Done tt (r, mkWorld (lines w) (S (pos w)))
  | _ => Fail JSONDecodeError (s, w)
  end.

Definition demo_open (path mode : string) (w : demo_world)
    : call demo_world unit :=
  if String.eqb mode "w"%string then Done tt (mkWorld [] 0)
  else Done tt (mkWorld (lines w) 0).

#[export] Instance demo_base : FOOOF_base Z := {|
  FOOOF := FOOOFResult Z;
  World := demo_world;
  file := unit;
  fit := demo_fit;
  get_results := fun s => s;
  _reset_dat := fun _ s => s;
  save := demo_save;
  load := demo_load;
  py_open := demo_open;
  py_close := fun _ w => w;
  py_flush_close := fun _ w => Done tt w
|}.

(** An object that already holds a result of an earlier call. *)
Definition demo_old : FOOOFResult Z := demo_result [9; 9; 9].

Definition demo_state (w : demo_world) : state :=
  mkState (demo_result []) [demo_old] w [].

Definition demo_freqs : list Z := [1; 2; 3].
Definition demo_psds : list (list Z) := [[4; 7; 2]; [6; 1; 8]].
Definition demo_bad_psds : list (list Z) := [[4; 7; 2]; [6; 0; 8]; [3; 3; 3]].

(** A batch whose spectra have one peak each. *)
Definition demo_even_psds : list (list Z) := [[4; 7; 2]; [6; 1; 3]].

(** The default file name of the methods. *)
Definition demo_name : string := "fooof_group_results"%string.

(** A sink file of two complete records and a truncated third. *)
Definition demo_file : demo_world :=
  mkWorld [Some (demo_result [4; 7; 2]); Some (demo_result [6; 1; 8]); None] 0.

(** An object that holds no result. *)
Definition demo_empty : state := mkState (demo_result []) [] demo_file [].

(** An object whose results were fitted in two modes: background
    parameters of length 2 and of length 3. *)
Definition demo_mixed : state :=
  mkState (demo_result [])
    [mkFOOOFResult [1; 2] [] 1 1; mkFOOOFResult [1; 2; 3] [] 1 1]
    demo_file [].

End Demo.

(** ** A fitter with a failing disk

    A second instance, for the error paths of the file operations.  The
    fitter is the one of [Demo].  The disk holds the lines of one file,
    takes at most [capacity] of them and lies in the current directory:
    opening any other path fails.  A line is a record, a well-formed record
    that lacks a field (loading it raises KeyError), or garbage. *)

Module Flaky.

Import Group.

Local Open Scope Z_scope.

Inductive line : Type :=
| Rec (r : FOOOFResult Z)
| Incomplete
| Garbage.

Record disk : Type := mkDisk {
  content : list line;
  rpos : nat;
  capacity : nat;
  is_open : bool
}.

Definition flaky_save (f : unit) (save_results : bool) (s : FOOOFResult Z)
    (w : disk) : call disk unit :=
  if (List.length (content w) <? capacity w)%nat
  then Done tt (mkDisk (content w ++ [Rec s]) (rpos w) (capacity w) (is_open w))
  else Fail OSError w.

Definition flaky_load (f : unit) (sw : FOOOFResult Z * disk)
    : call (FOOOFResult Z * disk) unit :=
  let '(s, w) := sw in
  match nth_error (content w) (rpos w) with
  | Some (Rec r) =>
      Done tt (r, mkDisk (content w) (S (rpos w)) (capacity w) (is_open w))
  | Some Incomplete =>
      Fail KeyError (s, mkDisk (content w) (S (rpos w)) (capacity w) (is_open w))
  | _ => Fail JSONDecodeError (s, w)
  end.

Definition flaky_open (path mode : string) (w : disk) : call disk unit :=
  if String.eqb path "fooof_group_results.json"%string then
    if String.eqb mode "w"%string
    then Done tt (mkDisk [] 0 (capacity w) true)
    else Done tt (mkDisk (content w) 0 (capacity w) true)
  else Fail OSError w.

Definition flaky_close (f : unit) (w : disk) : disk :=
  mkDisk (content w) (rpos w) (capacity w) false.

#[export] Instance flaky_base : FOOOF_base Z := {|
  FOOOF := FOOOFResult Z;
  World := disk;
  file := unit;
  fit := Demo.demo_fit;
  get_results := fun s => s;
  _reset_dat := fun _ s => s;
  save := flaky_save;
  load := flaky_load;
  py_open := flaky_open;
  py_close := flaky_close;
  py_flush_close := fun f w => Done tt (flaky_close f w)
|}.

(** An object holding an earlier result, over a disk with room for one
    line. *)
Definition small_disk : disk := mkDisk [] 0 1 false.

Definition flaky_state (w : disk) : state :=
  mkState (Demo.demo_result []) [Demo.demo_old] w [].

(** A file of one complete record and then a record that lacks a field. *)
Definition incomplete_file : disk :=
  mkDisk [Rec (Demo.demo_result [4; 7; 2]); Incomplete] 0 5 false.

End Flaky.

(** * Properties *)

(** ** numpy floats *)

Module NpFacts.

Import Np.

Local Open Scope R_scope.

Lemma Rsign_pos (r : R) : 0 < r -> Rsign r = Pos.
Proof.
  intros H. unfold Rsign.
  destruct (total_order_T r 0) as [[Hlt | Heq] | Hgt]; try reflexivity; lra.
Qed.

Lemma Rsign_neg (r : R) : r < 0 -> Rsign r = Neg.
Proof.
  intros H. unfold Rsign.
  destruct (total_order_T r 0) as [[Hlt | Heq] | Hgt]; try reflexivity; lra.
Qed.

Lemma Rsign_zero (r : R) : r = 0 -> Rsign r = Zero.
Proof.
  intros H. unfold Rsign.
  destruct (total_order_T r 0) as [[Hlt | Heq] | Hgt]; try reflexivity; lra.
Qed.

Lemma Rsign_nonpos (r : R) : r <= 0 -> Rsign r <> Pos.
Proof.
  intros H. unfold Rsign.
  destruct (total_order_T r 0) as [[Hlt | Heq] | Hgt]; try discriminate; lra.
Qed.

Lemma np_add_0_l (v : npfloat) : np_add (Fin 0) v = v.
Proof. destruct v; simpl; try reflexivity. f_equal. ring. Qed.

Lemma np_add_comm (a b : npfloat) : np_add a b = np_add b a.
Proof. destruct a, b; simpl; try reflexivity. f_equal. ring. Qed.

Lemma np_add_assoc (a b c : npfloat) :
  np_add a (np_add b c) = np_add (np_add a b) c.
Proof. destruct a, b, c; simpl; try reflexivity. f_equal. ring. Qed.

(** The log of a non-positive argument is not a finite number, and it is
    not an error either: [np_log10] is a total function. *)
Lemma np_log10_nonpositive (v : npfloat) :
  Funcs.nonpositive v -> isfinite (np_log10 v) = false.
Proof.
  destruct v as [r | | | ]; simpl; intros H; try reflexivity; try contradiction.
  pose proof (Rsign_nonpos r H) as Hs.
  destruct (Rsign r); try reflexivity. congruence.
Qed.

Lemma np_sub_nonfinite_l (a b : npfloat) :
  isfinite a = false -> isfinite (np_sub a b) = false.
Proof. destruct a, b; simpl; intros H; try reflexivity; discriminate. Qed.

Lemma np_sub_nonfinite_r (a b : npfloat) :
  isfinite b = false -> isfinite (np_sub a b) = false.
Proof. destruct a, b; simpl; intros H; try reflexivity; discriminate. Qed.

Lemma arr_add_map {X} (g h : X -> npfloat) (x : list X) :
  arr_add (map g x) (map h x) = map (fun v => np_add (g v) (h v)) x.
Proof.
  induction x as [| v x IH]; simpl; [reflexivity | now rewrite IH].
Qed.

End NpFacts.

(** ** funcs.py *)

Module FuncsProps.

Import Np NpFacts Funcs.

Local Open Scope R_scope.

(** *** The Gaussian loop *)

Lemma gaussian_step_map (g : npfloat -> npfloat) (x : ndarray)
    (ctr amp wid : npfloat) :
  gaussian_step x (map g x) ctr amp wid
  = map (fun v => np_add (g v) (gaussian_term (ctr, amp, wid) v)) x.
Proof.
  unfold gaussian_step, s_mul_arr, arr_exp, arr_div_s, arr_neg, arr_square,
    arr_sub_s.
  rewrite !map_map. now rewrite arr_add_map.
Qed.

Lemma running_sum_gaussian_sum (peaks : list peak) (acc v : npfloat) :
  running_sum peaks acc v = np_add acc (gaussian_sum peaks v).
Proof.
  revert acc. induction peaks as [| p peaks IH]; intros acc.
  - simpl. now rewrite np_add_comm, np_add_0_l.
  - change (running_sum (p :: peaks) acc v)
      with (running_sum peaks (np_add acc (gaussian_term p v)) v).
    rewrite IH.
    change (gaussian_sum (p :: peaks) v)
      with (np_add (gaussian_term p v) (gaussian_sum peaks v)).
    now rewrite np_add_assoc.
Qed.

Lemma getitem_app_at {A} (pre rest : list A) (k : nat) (a : A) :
  nth_error rest k = Some a -> getitem (pre ++ rest) (List.length pre + k) = Ok a.
Proof.
  intros H. unfold getitem.
  rewrite nth_error_app2 by lia.
  replace (List.length pre + k - List.length pre)%nat with k by lia.
  now rewrite H.
Qed.

Lemma gaussian_loop_peaks (x : ndarray) (peaks : list peak) :
  forall (pre : list npfloat) (g : npfloat -> npfloat) (fuel : nat),
    (List.length peaks <= fuel)%nat ->
    gaussian_loop
      (range_from fuel (List.length pre)
         (List.length pre + 3 * List.length peaks) 3)
      x (pre ++ peak_params peaks) (map g x)
    = Ok (map (fun v => running_sum peaks (g v) v) x).
Proof.
  induction peaks as [| [[ctr amp] wid] peaks IH]; intros pre g fuel Hfuel.
  - simpl. rewrite Nat.add_0_r.
    destruct fuel as [| fuel]; simpl; [reflexivity |].
    now rewrite Nat.ltb_irrefl.
  - destruct fuel as [| fuel]; [simpl in Hfuel; lia |].
    cbn [range_from].
    match goal with
    | |- context [if ?c then _ else _] =>
        replace c with true by (symmetry; apply Nat.ltb_lt; simpl; lia)
    end.
    cbn [gaussian_loop].
    change (peak_params ((ctr, amp, wid) :: peaks))
      with (ctr :: amp :: wid :: peak_params peaks).
    set (rest := ctr :: amp :: wid :: peak_params peaks).
    pose proof (getitem_app_at pre rest 0 ctr eq_refl) as H0.
    rewrite Nat.add_0_r in H0.
    rewrite H0, (getitem_app_at pre rest 1 amp eq_refl),
      (getitem_app_at pre rest 2 wid eq_refl).
    cbn [rbind]. subst rest.
    rewrite gaussian_step_map.
    specialize (IH (pre ++ [ctr; amp; wid])
                  (fun v => np_add (g v) (gaussian_term (ctr, amp, wid) v)) fuel).
    rewrite length_app in IH. cbn [List.length] in IH.
    rewrite <- app_assoc in IH. cbn [app] in IH.
    replace (List.length pre + 3 + 3 * List.length peaks)%nat
      with (List.length pre + 3 * List.length (((ctr, amp, wid) : peak) :: peaks))%nat
      in IH by (cbn [List.length]; lia).
    rewrite IH by (simpl in Hfuel; lia).
    reflexivity.
Qed.

Lemma length_peak_params (peaks : list peak) :
  List.length (peak_params peaks) = (3 * List.length peaks)%nat.
Proof.
  induction peaks as [| [[ctr amp] wid] peaks IH]; simpl in *; lia.
Qed.

(** C3.  For every array [x] and every parameter tuple made of [k >= 0]
    consecutive (center, amplitude, width) triples, [gaussian_function]
    returns, elementwise, the sum over the triples of
    amp·exp(−(x−center)²/(2·width²)); with no triple at all it returns the
    all-zero array of the length of [x]. *)
Theorem gaussian_function_sum (x : ndarray) (peaks : list peak) :
  gaussian_function x (peak_params peaks) = Ok (map (gaussian_sum peaks) x)
  /\ gaussian_function x [] = Ok (repeat (Fin 0) (List.length x)).
Proof.
  assert (Hgen : forall ps, gaussian_function x (peak_params ps)
                            = Ok (map (gaussian_sum ps) x)).
  { intros ps. unfold gaussian_function, py_range, zeros_like.
    rewrite length_peak_params.
    pose proof (gaussian_loop_peaks x ps [] (fun _ => Fin 0)
                  (3 * List.length ps)) as H.
    cbn [List.length app Nat.add] in H.
    rewrite H by lia.
    f_equal. apply map_ext. intros v.
    now rewrite running_sum_gaussian_sum, np_add_0_l. }
  split; [apply Hgen |].
  pose proof (Hgen []) as H0. cbn [peak_params flat_map] in H0.
  rewrite H0. f_equal. clear Hgen H0.
  induction x as [| v x IH]; [reflexivity |].
  cbn [map List.length repeat]. rewrite IH. reflexivity.
Qed.

(** *** The knee background *)

(** With three parameters the broadcast expression is a map over [x]. *)
Lemma loglorentzian_function_map (x : ndarray) (a b c : npfloat) :
  loglorentzian_function x [a; b; c] = Ok (map (knee_model_log a b c) x).
Proof.
  unfold loglorentzian_function, s_sub_arr, arr_log10, s_add_arr, arr_pow_s.
  now rewrite !map_map.
Qed.

(** C1, as amended.  For every array [x] and parameter triple (a, b, c),
    [loglorentzian_function] returns, elementwise,
    log10(a) − log10(b + x^c): the first parameter enters through its
    base-10 logarithm. *)
Theorem loglorentzian_function_log_offset (x : ndarray) (a b c : npfloat) :
  loglorentzian_function x [a; b; c] = Ok (map (knee_model_log a b c) x).
Proof.
  unfold loglorentzian_function, s_sub_arr, arr_log10, s_add_arr, arr_pow_s.
  now rewrite !map_map.
Qed.

(** On the domain the docstring asks for (positive x and a, knee b >= 0)
    the value is the real number log10(a) − log10(b + x^c). *)
Lemma knee_model_log_real (a b c v : R) :
  0 < a -> 0 <= b -> 0 < v ->
  knee_model_log (Fin a) (Fin b) (Fin c) (Fin v)
  = Fin (ln a / ln 10 - ln (b + Rpower v c) / ln 10).
Proof.
  intros Ha Hb Hv. unfold knee_model_log.
  assert (Hpow : np_power (Fin v) (Fin c) = Fin (Rpower v c)).
  { unfold np_power. rewrite (Rsign_pos v Hv).
    destruct (Rsign c) eqn:Hc; try reflexivity.
    unfold Rsign in Hc.
    destruct (total_order_T c 0) as [[Hlt | Heq] | Hgt]; try discriminate.
    subst c. unfold Rpower. now rewrite Rmult_0_l, exp_0. }
  rewrite Hpow. cbn [np_add].
  assert (Hpos : 0 < b + Rpower v c).
  { unfold Rpower. pose proof (exp_pos (c * ln v)). lra. }
  unfold np_log10. rewrite (Rsign_pos a Ha), (Rsign_pos _ Hpos).
  reflexivity.
Qed.

Lemma Rpower_1_1 : Rpower 1 1 = 1.
Proof. apply Rpower_1. lra. Qed.

(** C1, counterexample.  At x = [1] and parameters (1, 0, 1) the code
    returns [0] = log10(1) − log10(0 + 1), where the formula with the raw offset
    gives [1] = 1 − log10(0 + 1). *)
Lemma loglorentzian_function_offset_not_raw :
  loglorentzian_function [Fin 1] [Fin 1; Fin 0; Fin 1] = Ok [Fin 0]
  /\ map (knee_model_spec (Fin 1) (Fin 0) (Fin 1)) [Fin 1] = [Fin 1]
  /\ loglorentzian_function [Fin 1] [Fin 1; Fin 0; Fin 1]
     <> Ok (map (knee_model_spec (Fin 1) (Fin 0) (Fin 1)) [Fin 1]).
Proof.
  assert (Hpow : np_power (Fin 1) (Fin 1) = Fin 1).
  { unfold np_power. rewrite (Rsign_pos 1) by lra. now rewrite Rpower_1_1. }
  assert (Hlog1 : np_log10 (Fin 1) = Fin 0).
  { unfold np_log10. rewrite (Rsign_pos 1) by lra.
    rewrite ln_1. f_equal. unfold Rdiv. ring. }
  assert (Hcode : loglorentzian_function [Fin 1] [Fin 1; Fin 0; Fin 1] = Ok [Fin 0]).
  { rewrite loglorentzian_function_map. cbn [map]. unfold knee_model_log.
    rewrite Hpow, np_add_0_l, Hlog1. unfold np_sub, np_neg, np_add.
    do 3 f_equal. ring. }
  assert (Hspec : map (knee_model_spec (Fin 1) (Fin 0) (Fin 1)) [Fin 1] = [Fin 1]).
  { cbn [map]. unfold knee_model_spec.
    rewrite Hpow, np_add_0_l, Hlog1. unfold np_sub, np_neg, np_add.
    do 2 f_equal. ring. }
  split; [exact Hcode |]. split; [exact Hspec |].
  rewrite Hcode, Hspec. intros H. injection H as H. lra.
Qed.

(** C2, as amended.  An input that takes the log of a non-positive value
    (the first parameter, or knee + x^slope at some element) does not make
    [loglorentzian_function] raise: the call returns an array of the length
    of [x], and the element concerned is not a finite number (it is nan or
    an infinity). *)
Theorem loglorentzian_function_nonfinite (x : ndarray) (a b c : npfloat)
    (i : nat) (v : npfloat) :
  nth_error x i = Some v ->
  nonpositive a \/ nonpositive (np_add b (np_power v c)) ->
  exists (y : ndarray) (r : npfloat),
    loglorentzian_function x [a; b; c] = Ok y
    /\ List.length y = List.length x
    /\ nth_error y i = Some r
    /\ isfinite r = false.
Proof.
  intros Hv Hdom.
  exists (map (knee_model_log a b c) x), (knee_model_log a b c v).
  split; [apply loglorentzian_function_map |].
  split; [apply length_map |].
  split; [now rewrite nth_error_map, Hv |].
  unfold knee_model_log. destruct Hdom as [Ha | Hk].
  - apply np_sub_nonfinite_l, np_log10_nonpositive, Ha.
  - apply np_sub_nonfinite_r, np_log10_nonpositive, Hk.
Qed.

Lemma loglorentzian_function_nonfinite_witness :
  exists (y : ndarray) (r : npfloat),
    loglorentzian_function [Fin 1] [Fin (-1); Fin 1; Fin 1] = Ok y
    /\ List.length y = List.length [Fin 1]
    /\ nth_error y 0 = Some r
    /\ isfinite r = false.
Proof.
  apply (loglorentzian_function_nonfinite [Fin 1] (Fin (-1)) (Fin 1) (Fin 1)
           0%nat (Fin 1)).
  - reflexivity.
  - left. simpl. lra.
Defined.

(** C2, counterexample.  With first parameter −1 the call takes
    log10(−1); it returns the array [nan] and raises nothing. *)
Lemma loglorentzian_function_returns_nan :
  nonpositive (Fin (-1))
  /\ loglorentzian_function [Fin 1] [Fin (-1); Fin 1; Fin 1] = Ok [NaN]
  /\ forall e, loglorentzian_function [Fin 1] [Fin (-1); Fin 1; Fin 1] <> Raise e.
Proof.
  assert (H : loglorentzian_function [Fin 1] [Fin (-1); Fin 1; Fin 1] = Ok [NaN]).
  { rewrite loglorentzian_function_map. cbn [map]. unfold knee_model_log.
    unfold np_log10 at 1. rewrite (Rsign_neg (-1)) by lra. reflexivity. }
  split; [simpl; lra |]. split; [exact H |].
  intros e. rewrite H. discriminate.
Qed.

End FuncsProps.

(** ** group.py *)

Module GroupProps.

Import Group.

Section Loop.

Context {F : Type} {B : FOOOF_base F}.

Variables (freqs : list F) (freq_range : option (F * F)) (save_dat : bool)
  (f_obj : option file).

(** One pass of the loop that returns has fitted the spectrum, appended the
    published result and logged the fit. *)
Lemma fit_group_body_done (psd : list F) (st st' : state) :
  fit_group_body freqs freq_range save_dat f_obj psd st = Done tt st' ->
  exists u s,
    fit freqs psd freq_range (self_base st) = Done u s
    /\ self_base st' = s
    /\ group_results st' = group_results st ++ [get_results s]
    /\ fit_log st' = fit_log st ++ [psd].
Proof.
  unfold fit_group_body, bind, self_fit, self_get_results,
    group_results_append, local, self_save, ret, raise.
  destruct (fit freqs psd freq_range (self_base st)) as [u s | e s] eqn:Hfit;
    [| discriminate].
  cbn. intros H. exists u, s. split; [reflexivity |].
  destruct save_dat.
  - destruct f_obj as [f |]; cbn in H; [| discriminate].
    destruct (save f true s (world st)) as [u' w | e w]; [| discriminate].
    injection H as <-. cbn. auto.
  - injection H as <-. cbn. auto.
Qed.


(** The loop invariant: on return, the results of the batch have been
    appended, in order, to what the list held on entry. *)
Lemma for_each_body_done (psds : list (list F)) :
  forall st st',
    for_each psds (fit_group_body freqs freq_range save_dat f_obj) st = Done tt st' ->
    group_results st'
    = group_results st ++ fit_each freqs freq_range (self_base st) psds
    /\ List.length (fit_each freqs freq_range (self_base st) psds) = List.length psds
    /\ self_base st' = base_after freqs freq_range (self_base st) psds
    /\ fit_log st' = fit_log st ++ psds.
Proof.
  induction psds as [| psd psds IH]; intros st st' H.
  - cbn in H. injection H as <-. cbn. now rewrite !app_nil_r.
  - cbn [for_each] in H. unfold bind at 1 in H.
    destruct (fit_group_body freqs freq_range save_dat f_obj psd st)
      as [[] st1 | e st1] eqn:Hbody; [| discriminate].
    apply fit_group_body_done in Hbody as (u & s & Hfit & Hs & Hres & Hlog).
    apply IH in H as (Hres' & Hlen & Hbase & Hlog').
    cbn [fit_each base_after]. rewrite Hfit. rewrite Hs in *.
    rewrite Hres', Hres, Hlog', Hlog, <- !app_assoc. cbn [List.length app].
    auto.
Qed.


End Loop.

Section Methods.

Context {F : Type} {B : FOOOF_base F}.

Variables (freqs : list F) (freq_range : option (F * F)) (save_dat : bool)
  (file_name file_path : string).

(** Entering [fit_group] empties the stored results and touches neither the
    base object nor the log of fits. *)
Lemma fit_group_enter_done (st st0 : state) (f_obj : option file) :
  fit_group_enter save_dat file_name file_path st = Done f_obj st0 ->
  group_results st0 = []
  /\ self_base st0 = self_base st
  /\ fit_log st0 = fit_log st.
Proof.
  unfold fit_group_enter, bind, _reset_group_results, open_, ret.
  destruct save_dat.
  - cbn. destruct (py_open _ _ (world st)) as [f w | e w]; [| discriminate].
    intros H. injection H as _ <-. cbn. auto.
  - intros H. injection H as _ <-. cbn. auto.
Qed.

(** A call of [fit_group] that returns went through its three stages. *)
Lemma fit_group_done (psds : list (list F)) (st st1 : state) :
  fit_group freqs psds freq_range save_dat file_name file_path st = Done tt st1 ->
  exists f_obj st0 stk,
    fit_group_enter save_dat file_name file_path st = Done f_obj st0
    /\ for_each psds (fit_group_body freqs freq_range save_dat f_obj) st0
       = Done tt stk
    /\ group_results st1 = group_results stk
    /\ fit_log st1 = fit_log stk.
Proof.
  unfold fit_group. unfold bind at 1.
  destruct (fit_group_enter save_dat file_name file_path st)
    as [f_obj st0 | e st0] eqn:Henter; [| discriminate].
  unfold bind at 1.
  destruct (for_each psds _ st0) as [[] stk | e stk] eqn:Hloop; [| discriminate].
  intros H. exists f_obj, st0, stk.
  split; [first [reflexivity | exact Henter] |]. split; [exact Hloop |].
  unfold bind, self_reset_dat, local, ret, raise, flush_close_ in H.
  destruct save_dat.
  - destruct f_obj as [f |]; [| discriminate]. cbn in H.
    destruct (py_flush_close f (world stk)) as [u w | e w]; [| discriminate].
    injection H as <-. cbn. auto.
  - injection H as <-. cbn. auto.
Qed.

Lemma fit_group_results (psds : list (list F)) (st st1 : state) :
  fit_group freqs psds freq_range save_dat file_name file_path st = Done tt st1 ->
  group_results st1 = fit_each freqs freq_range (self_base st) psds
  /\ List.length (fit_each freqs freq_range (self_base st) psds) = List.length psds
  /\ fit_log st1 = fit_log st ++ psds.
Proof.
  intros H. apply fit_group_done in H as (f_obj & st0 & stk & He & Hl & Hr & Hlog).
  apply fit_group_enter_done in He as (Hnil & Hbase & Hlog0).
  apply for_each_body_done in Hl as (Hres & Hlen & _ & Hlogk).
  rewrite Hnil, Hbase in *. cbn [app] in Hres.
  rewrite Hr, Hres, Hlog, Hlogk, Hlog0. auto.
Qed.

(** Without a sink, [fit_group] returns as soon as every fit of the batch
    succeeds. *)
Lemma fit_group_completes (psds : list (list F)) (st : state) :
  save_dat = false ->
  List.length (fit_each freqs freq_range (self_base st) psds) = List.length psds ->
  exists st1,
    fit_group freqs psds freq_range save_dat file_name file_path st = Done tt st1.
Proof.
  intros -> Hall.
  assert (Hloop : forall ps st0,
             List.length (fit_each freqs freq_range (self_base st0) ps)
             = List.length ps ->
             exists stk,
               for_each ps (fit_group_body freqs freq_range false None) st0
               = Done tt stk).
  { induction ps as [| psd ps IH]; intros st0 Hlen.
    - eexists. reflexivity.
    - cbn [fit_each] in Hlen. cbn [for_each].
      unfold bind at 1. unfold fit_group_body at 1. unfold bind at 1, self_fit.
      destruct (fit freqs psd freq_range (self_base st0)) as [u s | e s] eqn:Hfit;
        [| discriminate].
      cbn [List.length] in Hlen. injection Hlen as Hlen.
      unfold bind, self_get_results, group_results_append, ret.
      apply IH. exact Hlen. }
  unfold fit_group, fit_group_enter, bind at 1 2, _reset_group_results, ret.
  unfold bind at 1.
  destruct (Hloop psds (set_group_results [] st) Hall) as (stk & Hk).
  rewrite Hk. unfold bind, self_reset_dat, ret. eexists. reflexivity.
Qed.

(** Under determinism every result of the batch is the result of its
    spectrum. *)
Lemma fit_each_by_input
    (res : list F -> list F -> option (F * F) -> FOOOFResult F) :
  fit_result_by_input res ->
  forall psds s,
    List.length (fit_each freqs freq_range s psds) = List.length psds ->
    fit_each freqs freq_range s psds
    = map (fun psd => res freqs psd freq_range) psds.
Proof.
  intros Hdet. induction psds as [| psd psds IH]; intros s Hlen; [reflexivity |].
  cbn [fit_each map] in *.
  destruct (fit freqs psd freq_range s) as [u s' | e s'] eqn:Hfit;
    [| discriminate].
  cbn [List.length] in Hlen. injection Hlen as Hlen.
  now rewrite (Hdet _ _ _ _ _ _ Hfit), (IH s' Hlen).
Qed.

(** C4.  Whatever results the object holds on entry, when [fit_group]
    returns on a batch of N spectra the stored results are exactly the N
    Fit Results of this batch in input order; nothing of the earlier
    results is kept.  Hence (the fit being deterministic) a second call on
    the same input leaves the same stored results as the first. *)
Theorem fit_group_replaces_results (psds : list (list F)) (st st1 : state) :
  fit_group freqs psds freq_range save_dat file_name file_path st = Done tt st1 ->
  group_results st1 = fit_each freqs freq_range (self_base st) psds
  /\ List.length (group_results st1) = List.length psds
  /\ (forall res st2,
        fit_result_by_input res ->
        fit_group freqs psds freq_range save_dat file_name file_path st1
        = Done tt st2 ->
        group_results st2 = group_results st1).
Proof.
  intros H. pose proof (fit_group_results psds st st1 H) as (Hres & Hlen & _).
  split; [exact Hres |]. split; [now rewrite Hres |].
  intros res st2 Hdet H2.
  pose proof (fit_group_results psds st1 st2 H2) as (Hres2 & Hlen2 & _).
  rewrite Hres2, Hres.
  now rewrite !(fit_each_by_input res Hdet) by assumption.
Qed.

(** *** A fit that raises *)




(** *** Loading *)

Lemma load_loop_records (f_obj : file) (s : FOOOF) (w : World)
    (rs : list (FOOOFResult F)) :
  records_then_garbage f_obj s w rs ->
  forall (st : state) (fuel : nat),
    self_base st = s -> world st = w ->
    (List.length rs < fuel)%nat ->
    exists st',
      load_loop fuel f_obj st = Some (Done tt st')
      /\ group_results st' = group_results st ++ rs.
Proof.
  induction 1 as [s w [s' w'] Hload | s w u s1 w1 rs Hload Hrest IH];
    intros st fuel Hs Hw Hfuel.
  - destruct fuel as [| fuel]; [cbn in Hfuel; lia |].
    cbn [load_loop]. unfold bind at 1, self_load. rewrite Hs, Hw, Hload.
    eexists. split; [reflexivity |]. cbn. now rewrite app_nil_r.
  - destruct fuel as [| fuel]; [cbn in Hfuel; lia |].
    cbn [load_loop]. unfold bind at 1, self_load. rewrite Hs, Hw, Hload.
    unfold bind, self_get_results, group_results_append.
    match goal with
    | |- context [load_loop fuel f_obj ?st1] =>
        destruct (IH st1 fuel) as (st' & Hrun & Hres);
          [reflexivity | reflexivity | cbn in Hfuel; lia |]
    end.
    exists st'. split; [exact Hrun |].
    rewrite Hres. cbn. now rewrite <- app_assoc.
Qed.

(** C5.  Loading from a file that holds complete records and then a record
    that fails to parse returns normally - no exception leaves the call -
    and the stored results are exactly the records before the first parse
    failure, in file order. *)
Theorem load_group_results_stops_at_garbage (st : state) (f_obj : file)
    (w0 : World) (rs : list (FOOOFResult F)) (fuel : nat) :
  py_open (os_path_join file_path (file_name ++ ".json")%string) "r"%string
    (world st) = Done f_obj w0 ->
  records_then_garbage f_obj (self_base st) w0 rs ->
  (List.length rs < fuel)%nat ->
  exists st',
    load_group_results fuel file_name file_path st = Some (Done tt st')
    /\ group_results st' = rs.
Proof.
  intros Hopen Hfile Hfuel.
  unfold load_group_results, bind, _reset_group_results, open_.
  cbn [world set_group_results]. rewrite Hopen.
  match goal with
  | |- context [load_loop fuel f_obj ?st0] =>
      destruct (load_loop_records f_obj _ _ rs Hfile st0 fuel)
        as (st1 & Hrun & Hres); [reflexivity | reflexivity | exact Hfuel |]
  end.
  rewrite Hrun. eexists. split; [reflexivity |].
  cbn. exact Hres.
Qed.

(** *** Extraction *)

Lemma comprehension_map {X Y} (f : X -> result Y) (g : X -> Y) (xs : list X) :
  (forall x, f x = Ok (g x)) -> comprehension f xs = Ok (map g xs).
Proof.
  intros Hf. induction xs as [| x xs IH]; cbn; [reflexivity |].
  now rewrite Hf, IH.
Qed.

Lemma floats_of_map {X} (g : X -> F) (xs : list X) :
  floats_of (map (fun x => PyFloat (g x)) xs) = Ok (map g xs).
Proof.
  induction xs as [| x xs IH]; cbn; [reflexivity | now rewrite IH].
Qed.

Lemma shape_eqb_refl (sh : list nat) : shape_eqb sh sh = true.
Proof.
  induction sh as [| n sh IH]; [reflexivity |].
  cbn. now rewrite Nat.eqb_refl, IH.
Qed.

(** [np.array] of values of one shape is their array, under any numpy. *)
Lemma np_array_same_shape (np : numpy_version) (sh : list nat)
    (items : list (pyval F)) :
  Forall (fun u => shape u = sh) items -> np_array np items = Ok items.
Proof.
  intros Hall. destruct items as [| v rest]; [reflexivity |].
  inversion Hall as [| ? ? Hv Hrest]; subst. cbn [np_array].
  replace (forallb (fun u => shape_eqb (shape u) (shape v)) rest) with true;
    [reflexivity |].
  symmetry. apply forallb_forall. intros u Hin.
  rewrite Forall_forall in Hrest. rewrite (Hrest u Hin).
  apply shape_eqb_refl.
Qed.

Lemma np_array_legacy (items : list (pyval F)) :
  np_array Numpy_legacy items = Ok items.
Proof.
  destruct items as [| v rest]; [reflexivity |]. cbn [np_array].
  now destruct (forallb _ rest).
Qed.

(** Extraction of a float-valued field from a non-empty list of results. *)
Lemma get_all_data_floats (np : numpy_version) (st : state) (name : string)
    (g : FOOOFResult F -> F) :
  (forall dat, getattr dat name = Ok (PyFloat (g dat))) ->
  group_results st <> [] ->
  get_all_data np st name None = Ok (Arr1 (map g (group_results st))).
Proof.
  intros Hattr Hne. unfold get_all_data.
  rewrite (comprehension_map _ (fun dat => PyFloat (g dat))) by exact Hattr.
  cbn [rbind].
  rewrite (np_array_same_shape np [])
    by (apply Forall_forall; intros u Hin;
        apply in_map_iff in Hin as (dat & <- & _); reflexivity).
  destruct (group_results st) as [| r rs]; [contradiction |].
  cbn [rbind map getitem nth_error is_ndarray].
  change (PyFloat (g r) :: map (fun dat => PyFloat (g dat)) rs)
    with (map (fun dat => PyFloat (g dat)) (r :: rs)).
  now rewrite floats_of_map.
Qed.

(** C6, as amended.  After [fit_group] has returned on a batch of N >= 1
    spectra, [get_all_data] with the name "error" (likewise "r2") returns a
    sequence of length N whose i-th element is the error (the r2) of the
    Fit Result of the i-th spectrum. *)
Theorem get_all_data_error_aligned (np : numpy_version)
    (psds : list (list F)) (st st1 : state) :
  fit_group freqs psds freq_range save_dat file_name file_path st = Done tt st1 ->
  psds <> [] ->
  get_all_data np st1 "error" None
  = Ok (Arr1 (map error (fit_each freqs freq_range (self_base st) psds)))
  /\ get_all_data np st1 "r2" None
     = Ok (Arr1 (map r2 (fit_each freqs freq_range (self_base st) psds)))
  /\ List.length (map error (fit_each freqs freq_range (self_base st) psds))
     = List.length psds
  /\ List.length (map r2 (fit_each freqs freq_range (self_base st) psds))
     = List.length psds.
Proof.
  intros H Hne.
  pose proof (fit_group_results psds st st1 H) as (Hres & Hlen & _).
  assert (Hne1 : group_results st1 <> []).
  { rewrite Hres. intros Hnil. rewrite Hnil in Hlen.
    destruct psds; [contradiction | discriminate]. }
  rewrite <- Hres, !length_map. rewrite Hres at 3 4.
  repeat split; try exact Hlen.
  - apply get_all_data_floats; [reflexivity | exact Hne1].
  - apply get_all_data_floats; [reflexivity | exact Hne1].
Qed.

Lemma concat_rows_peaks (rs : list (FOOOFResult F)) :
  concat_rows 3
    (map (fun arr : pyval F => if ndim arr =? 1 then reshape_row arr else arr)
       (map (fun dat => Arr2 3 (map row3 (oscillations_params dat))) rs))
  = Ok (concat (map (fun dat => map row3 (oscillations_params dat)) rs)).
Proof.
  induction rs as [| r rs IH]; [reflexivity |].
  cbn [map concat_rows ndim Nat.eqb concat]. now rewrite IH.
Qed.

(** [np.array] of the peak arrays of a group that can be stacked. *)
Lemma np_array_peaks (np : numpy_version) (rs : list (FOOOFResult F)) :
  peaks_stackable np rs ->
  np_array np (map (fun dat => Arr2 3 (map row3 (oscillations_params dat))) rs)
  = Ok (map (fun dat => Arr2 3 (map row3 (oscillations_params dat))) rs).
Proof.
  intros [-> | (n & Hall)]; [apply np_array_legacy |].
  apply (np_array_same_shape np [n; 3]).
  apply Forall_forall. intros u Hin.
  apply in_map_iff in Hin as (dat & <- & Hdat).
  rewrite Forall_forall in Hall. cbn [shape].
  now rewrite length_map, (Hall dat Hdat).
Qed.

(** Where numpy makes an array of the peak parameters - under the legacy
    numpy always, under the strict one when the spectra have equally many
    peaks - [get_all_data] on the peak-parameters field of a non-empty
    group returns one 2-d array: the peak lists of the spectra one after
    the other in input order, one row (center, amplitude, width) per peak,
    and no column that names the spectrum a row came from. *)
Theorem get_all_data_peaks_concat (np : numpy_version) (st : state) :
  group_results st <> [] ->
  peaks_stackable np (group_results st) ->
  get_all_data np st "oscillations_params" None
  = Ok (Arr2 3 (concat (map (fun dat => map row3 (oscillations_params dat))
                            (group_results st)))).
Proof.
  intros Hne Hstack. unfold get_all_data.
  rewrite (comprehension_map _
             (fun dat => Arr2 3 (map row3 (oscillations_params dat))))
    by reflexivity.
  cbn [rbind]. rewrite (np_array_peaks np _ Hstack).
  destruct (group_results st) as [| r rs] eqn:Hrs; [contradiction |].
  cbn [rbind getitem nth_error map is_ndarray].
  pose proof (concat_rows_peaks (r :: rs)) as Hcat.
  cbn [map] in Hcat.
  unfold np_concatenate0. cbn [ndim Nat.eqb]. cbn [ndim Nat.eqb] in Hcat.
  rewrite Hcat. reflexivity.
Qed.

(** C9.  With no stored results, [get_all_data] raises (IndexError, from
    indexing the first extracted element) for every field name and every
    column index; it does not return an empty sequence. *)
Theorem get_all_data_empty_raises (np : numpy_version) (st : state)
    (name : string) (ind : option Z) :
  group_results st = [] ->
  get_all_data np st name ind = Raise IndexError.
Proof.
  intros Hnil. unfold get_all_data. rewrite Hnil. reflexivity.
Qed.

End Methods.

(** *** The theorems at work on the concrete fitter *)

Import Demo.

Local Open Scope Z_scope.

Lemma fit_group_replaces_results_witness :
  let st := demo_state demo_file in
  let st1 := state_of (fit_group demo_freqs demo_psds None true demo_name
                         EmptyString st) in
  fit_group demo_freqs demo_psds None true demo_name EmptyString st = Done tt st1
  /\ (group_results st1 = fit_each demo_freqs None (self_base st) demo_psds
      /\ List.length (group_results st1) = List.length demo_psds
      /\ (forall res st2,
            fit_result_by_input res ->
            fit_group demo_freqs demo_psds None true demo_name EmptyString st1
            = Done tt st2 ->
            group_results st2 = group_results st1)).
Proof.
  intros st st1. split; [vm_compute; reflexivity |].
  apply (fit_group_replaces_results demo_freqs None true demo_name EmptyString
           demo_psds st st1).
  vm_compute; reflexivity.
Defined.



Lemma load_group_results_stops_at_garbage_witness :
  let st := demo_state demo_file in
  exists st',
    load_group_results 3 demo_name EmptyString st = Some (Done tt st')
    /\ group_results st' = [demo_result [4; 7; 2]; demo_result [6; 1; 8]]%Z.
Proof.
  intros st.
  apply (load_group_results_stops_at_garbage demo_name EmptyString st tt
           (mkWorld (lines demo_file) 0)).
  - vm_compute; reflexivity.
  - exact (rtg_record tt (demo_result []) (mkWorld (lines demo_file) 0) tt
             (demo_result [4; 7; 2]%Z) (mkWorld (lines demo_file) 1) _ eq_refl
          (rtg_record tt (demo_result [4; 7; 2]%Z) (mkWorld (lines demo_file) 1) tt
             (demo_result [6; 1; 8]%Z) (mkWorld (lines demo_file) 2) _ eq_refl
          (rtg_garbage tt (demo_result [6; 1; 8]%Z) (mkWorld (lines demo_file) 2)
             (demo_result [6; 1; 8]%Z, mkWorld (lines demo_file) 2) eq_refl))).
  - cbn. lia.
Defined.

Lemma get_all_data_error_aligned_witness :
  let st := demo_state demo_file in
  let st1 := state_of (fit_group demo_freqs demo_psds None false demo_name
                         EmptyString st) in
  get_all_data Numpy_strict st1 "error"%string None
  = Ok (Arr1 (map error (fit_each demo_freqs None (self_base st) demo_psds)))
  /\ get_all_data Numpy_strict st1 "r2"%string None
     = Ok (Arr1 (map r2 (fit_each demo_freqs None (self_base st) demo_psds)))
  /\ List.length (map error (fit_each demo_freqs None (self_base st) demo_psds))
     = List.length demo_psds
  /\ List.length (map r2 (fit_each demo_freqs None (self_base st) demo_psds))
     = List.length demo_psds.
Proof.
  intros st st1.
  apply (get_all_data_error_aligned demo_freqs None false demo_name EmptyString
           Numpy_strict demo_psds st st1).
  - vm_compute; reflexivity.
  - discriminate.
Defined.

(** C6, counterexample.  An empty batch is fitted successfully - the call
    returns, with N = 0 results - and [get_all_data] on "error" then raises
    instead of returning a sequence of length 0, under either numpy. *)
Lemma get_all_data_error_empty_batch :
  let st1 := state_of (fit_group demo_freqs [] None false demo_name EmptyString
                         (demo_state demo_file)) in
  fit_group demo_freqs [] None false demo_name EmptyString (demo_state demo_file)
  = Done tt st1
  /\ get_all_data Numpy_legacy st1 "error"%string None = Raise IndexError
  /\ get_all_data Numpy_legacy st1 "r2"%string None = Raise IndexError
  /\ get_all_data Numpy_strict st1 "error"%string None = Raise IndexError
  /\ get_all_data Numpy_strict st1 "r2"%string None = Raise IndexError.
Proof. vm_compute. auto. Qed.

(** C7, at the failing input.  The two spectra of this batch have one and
    two peaks.  Under numpy 1.24 or later [np.array] raises ValueError on
    their peak arrays, so [get_all_data] on the peak-parameters field
    raises where the 2-d array of the three peaks is due; under an earlier
    numpy it returns that array. *)
Theorem get_all_data_peaks_ragged :
  let st1 := state_of (fit_group demo_freqs demo_psds None false demo_name
                         EmptyString (demo_state demo_file)) in
  map (fun dat => List.length (oscillations_params dat)) (group_results st1)
  = [1; 2]%nat
  /\ get_all_data Numpy_strict st1 "oscillations_params"%string None
     = Raise ValueError
  /\ get_all_data Numpy_legacy st1 "oscillations_params"%string None
     = Ok (Arr2 3 [[7; 7; 1]; [6; 6; 1]; [8; 8; 1]]).
Proof. vm_compute. auto. Qed.

Lemma get_all_data_peaks_concat_witness :
  let st1 := state_of (fit_group demo_freqs demo_even_psds None false demo_name
                         EmptyString (demo_state demo_file)) in
  get_all_data Numpy_strict st1 "oscillations_params"%string None
  = Ok (Arr2 3 (concat (map (fun dat => map row3 (oscillations_params dat))
                            (group_results st1)))).
Proof.
  intros st1. apply (get_all_data_peaks_concat Numpy_strict st1).
  - vm_compute. discriminate.
  - right. exists 1%nat. vm_compute. repeat constructor.
Defined.

Lemma get_all_data_empty_raises_witness :
  get_all_data Numpy_strict demo_empty "error"%string (Some 0)
  = Raise IndexError.
Proof.
  apply (get_all_data_empty_raises Numpy_strict demo_empty).
  reflexivity.
Defined.

(** The runs above, evaluated. *)

Example demo_fit_group_results :
  group_results
    (state_of (fit_group demo_freqs demo_psds None true demo_name EmptyString
                 (demo_state demo_file)))
  = [demo_result [4; 7; 2]; demo_result [6; 1; 8]]%Z.
Proof. vm_compute. reflexivity. Qed.

Example demo_peaks_table :
  get_all_data Numpy_strict
    (state_of (fit_group demo_freqs demo_even_psds None false demo_name
                 EmptyString (demo_state demo_file)))
    "oscillations_params"%string None
  = Ok (Arr2 3 [[7; 7; 1]; [6; 6; 1]]%Z).
Proof. vm_compute. reflexivity. Qed.

Example demo_peak_centers :
  get_all_data Numpy_legacy
    (state_of (fit_group demo_freqs demo_psds None false demo_name EmptyString
                 (demo_state demo_file)))
    "oscillations_params"%string (Some 0%Z)
  = Ok (Arr1 [7; 6; 8]%Z).
Proof. vm_compute. reflexivity. Qed.

Example demo_partial_results :
  group_results
    (state_of (fit_group demo_freqs demo_bad_psds None false demo_name EmptyString
                 (demo_state demo_file)))
  = [demo_result [4; 7; 2]%Z].
Proof. vm_compute. reflexivity. Qed.

End GroupProps.

(** * Further properties of funcs.py *)

Module FuncsMore.

Import Np NpFacts Funcs FuncsProps.

Local Open Scope R_scope.

(** *** gaussian_function *)

(** The loop's value on a tuple of whole triples, summed in loop order. *)
Lemma gaussian_function_running (x : ndarray) (peaks : list peak) :
  gaussian_function x (peak_params peaks)
  = Ok (map (fun v => running_sum peaks (Fin 0) v) x).
Proof.
  unfold gaussian_function, py_range, zeros_like.
  rewrite length_peak_params.
  pose proof (gaussian_loop_peaks x peaks [] (fun _ => Fin 0)
                (3 * List.length peaks)) as H.
  cbn [List.length app Nat.add] in H.
  now rewrite H by lia.
Qed.

Lemma arr_add_length (a b : ndarray) :
  List.length a = List.length b -> List.length (arr_add a b) = List.length a.
Proof.
  revert b. induction a as [| v a IH]; intros [| w b] H; simpl in *;
    try reflexivity; try discriminate.
  now rewrite IH by lia.
Qed.

Lemma gaussian_step_length (x y : ndarray) (ctr amp wid : npfloat) :
  List.length y = List.length x ->
  List.length (gaussian_step x y ctr amp wid) = List.length x.
Proof.
  intros H. unfold gaussian_step, s_mul_arr, arr_exp, arr_div_s, arr_neg,
    arr_square, arr_sub_s.
  rewrite arr_add_length; [exact H |].
  now rewrite !length_map.
Qed.

Lemma gaussian_loop_length (x : ndarray) (params : list npfloat) :
  forall (idxs : list nat) (y0 y : ndarray),
    gaussian_loop idxs x params y0 = Ok y ->
    List.length y0 = List.length x ->
    List.length y = List.length x.
Proof.
  induction idxs as [| i idxs IH]; intros y0 y H Hlen.
  - cbn in H. now injection H as <-.
  - cbn [gaussian_loop] in H.
    destruct (getitem params i) as [ctr | e]; [| discriminate].
    destruct (getitem params (i + 1)) as [amp | e]; [| discriminate].
    destruct (getitem params (i + 2)) as [wid | e]; [| discriminate].
    cbn [rbind] in H. eapply IH; [exact H |].
    now apply gaussian_step_length.
Qed.

(** Whenever [gaussian_function] returns, whatever the parameters, the
    result has the length of [x]. *)
Theorem gaussian_function_length (x : ndarray) (params : list npfloat)
    (y : ndarray) :
  gaussian_function x params = Ok y -> List.length y = List.length x.
Proof.
  intros H. unfold gaussian_function in H.
  eapply gaussian_loop_length; [exact H |].
  unfold zeros_like. apply length_map.
Qed.

Lemma gaussian_function_length_witness :
  exists y,
    gaussian_function [Fin 0; Fin 1] [Fin 1; Fin 2; Fin 3] = Ok y
    /\ List.length y = List.length [Fin 0; Fin 1].
Proof.
  exists (map (fun v => running_sum [(Fin 1, Fin 2, Fin 3)] (Fin 0) v)
            [Fin 0; Fin 1]).
  split.
  - exact (gaussian_function_running [Fin 0; Fin 1] [(Fin 1, Fin 2, Fin 3)]).
  - apply (gaussian_function_length [Fin 0; Fin 1] [Fin 1; Fin 2; Fin 3]).
    exact (gaussian_function_running [Fin 0; Fin 1] [(Fin 1, Fin 2, Fin 3)]).
Defined.

(** The loop over whole triples followed by one or two values more. *)
Lemma gaussian_loop_ragged (x : ndarray) (extra : list npfloat)
    (peaks : list peak) :
  List.length extra = 1%nat \/ List.length extra = 2%nat ->
  forall (pre : list npfloat) (g : npfloat -> npfloat) (fuel : nat),
    (List.length peaks < fuel)%nat ->
    gaussian_loop
      (range_from fuel (List.length pre)
         (List.length pre + (3 * List.length peaks + List.length extra)) 3)
      x (pre ++ peak_params peaks ++ extra) (map g x)
    = Raise IndexError.
Proof.
  intros Hextra.
  induction peaks as [| [[ctr amp] wid] peaks IH]; intros pre g fuel Hfuel.
  - destruct fuel as [| fuel]; [cbn in Hfuel; lia |].
    cbn [range_from peak_params flat_map app List.length Nat.mul Nat.add].
    match goal with
    | |- context [if ?c then _ else _] =>
        replace c with true by (symmetry; apply Nat.ltb_lt; lia)
    end.
    cbn [gaussian_loop]. unfold getitem.
    rewrite !nth_error_app2 by lia.
    replace (List.length pre - List.length pre)%nat with 0%nat by lia.
    replace (List.length pre + 1 - List.length pre)%nat with 1%nat by lia.
    replace (List.length pre + 2 - List.length pre)%nat with 2%nat by lia.
    destruct extra as [| e0 [| e1 [| e2 extra]]]; cbn in Hextra;
      try (exfalso; lia); reflexivity.
  - destruct fuel as [| fuel]; [cbn in Hfuel; lia |].
    cbn [range_from].
    match goal with
    | |- context [if ?c then _ else _] =>
        replace c with true by (symmetry; apply Nat.ltb_lt; simpl; lia)
    end.
    cbn [gaussian_loop].
    change (peak_params ((ctr, amp, wid) :: peaks) ++ extra)
      with (ctr :: amp :: wid :: peak_params peaks ++ extra).
    set (rest := ctr :: amp :: wid :: peak_params peaks ++ extra).
    pose proof (getitem_app_at pre rest 0 ctr eq_refl) as H0.
    rewrite Nat.add_0_r in H0.
    rewrite H0, (getitem_app_at pre rest 1 amp eq_refl),
      (getitem_app_at pre rest 2 wid eq_refl).
    cbn [rbind]. subst rest.
    rewrite gaussian_step_map.
    specialize (IH (pre ++ [ctr; amp; wid])
                  (fun v => np_add (g v) (gaussian_term (ctr, amp, wid) v)) fuel).
    rewrite length_app in IH. cbn [List.length] in IH.
    rewrite <- app_assoc in IH. cbn [app] in IH.
    replace (List.length pre + 3
             + (3 * List.length peaks + List.length extra))%nat
      with (List.length pre
            + (3 * List.length (((ctr, amp, wid) : peak) :: peaks)
               + List.length extra))%nat
      in IH by (cbn [List.length]; lia).
    apply IH. cbn [List.length] in Hfuel. lia.
Qed.

(** A parameter tuple whose length is not a multiple of three - whole
    triples and one or two values more - makes the loop index past the end:
    the call raises IndexError, whatever [x] is. *)
Theorem gaussian_function_ragged_params (x : ndarray) (peaks : list peak)
    (extra : list npfloat) :
  List.length extra = 1%nat \/ List.length extra = 2%nat ->
  gaussian_function x (peak_params peaks ++ extra) = Raise IndexError.
Proof.
  intros Hextra. unfold gaussian_function, py_range, zeros_like.
  rewrite length_app, length_peak_params.
  pose proof (gaussian_loop_ragged x extra peaks Hextra [] (fun _ => Fin 0)
                (3 * List.length peaks + List.length extra)) as H.
  cbn [List.length app Nat.add] in H.
  apply H. destruct Hextra; lia.
Qed.

Lemma gaussian_function_ragged_params_witness :
  gaussian_function [Fin 0; Fin 1]
    (peak_params [(Fin 1, Fin 2, Fin 3)] ++ [Fin 4; Fin 5])
  = Raise IndexError.
Proof.
  apply (gaussian_function_ragged_params [Fin 0; Fin 1]
           [(Fin 1, Fin 2, Fin 3)] [Fin 4; Fin 5]).
  right. reflexivity.
Defined.

(** One more triple at the end of the parameters adds its Gaussian to the
    result of the parameters before it. *)
Theorem gaussian_function_append_peak (x : ndarray) (peaks : list peak)
    (p : peak) :
  exists y,
    gaussian_function x (peak_params peaks) = Ok y
    /\ gaussian_function x (peak_params (peaks ++ [p]))
       = Ok (arr_add y (map (gaussian_term p) x)).
Proof.
  exists (map (fun v => running_sum peaks (Fin 0) v) x).
  split; [apply gaussian_function_running |].
  rewrite gaussian_function_running, arr_add_map.
  apply f_equal, map_ext. intros v. unfold running_sum.
  now rewrite fold_left_app.
Qed.

(** *** linear_function and quadratic_function *)

(** [linear_function] returns offset + x·slope at every element; it reads
    its first two parameters and ignores any further one. *)
Theorem linear_function_value (x : ndarray) (offset slope : npfloat)
    (rest : list npfloat) :
  linear_function x (offset :: slope :: rest)
  = Ok (map (fun v => np_add offset (np_mul v slope)) x).
Proof.
  unfold linear_function, zeros_like, arr_add_s, arr_mul_s. cbn.
  rewrite map_map, arr_add_map.
  apply f_equal, map_ext. intros v. now rewrite np_add_0_l.
Qed.

(** [quadratic_function] returns offset + x·slope + x²·curve at every
    element, and ignores parameters after the third. *)
Theorem quadratic_function_value (x : ndarray) (offset slope curve : npfloat)
    (rest : list npfloat) :
  quadratic_function x (offset :: slope :: curve :: rest)
  = Ok (map (fun v => np_add (np_add offset (np_mul v slope))
                             (np_mul (np_square v) curve)) x).
Proof.
  unfold quadratic_function, zeros_like, arr_add_s, arr_mul_s, arr_square. cbn.
  rewrite !map_map, arr_add_map, arr_add_map.
  apply f_equal, map_ext. intros v. now rewrite np_add_0_l.
Qed.

(** With too few parameters - fewer than two for the linear model, fewer
    than three for the quadratic one - the call raises IndexError, for
    every [x], the empty array included. *)
Theorem polynomial_functions_short_params (x : ndarray) (params : list npfloat) :
  (List.length params < 3)%nat ->
  quadratic_function x params = Raise IndexError
  /\ ((List.length params < 2)%nat -> linear_function x params = Raise IndexError).
Proof.
  intros H3. split.
  - destruct params as [| a [| b [| c params]]]; try reflexivity.
    cbn in H3. lia.
  - intros H2. destruct params as [| a [| b params]]; try reflexivity.
    cbn in H2. lia.
Qed.

Lemma polynomial_functions_short_params_witness :
  quadratic_function [] [Fin 1; Fin 2] = Raise IndexError
  /\ ((List.length [Fin 1; Fin 2] < 2)%nat ->
      linear_function [] [Fin 1; Fin 2] = Raise IndexError).
Proof.
  apply (polynomial_functions_short_params [] [Fin 1; Fin 2]).
  cbn. lia.
Defined.

(** *** loglorentzian_function *)

(** [loglorentzian_function] unpacks its parameters: any number of them
    other than three raises ValueError. *)
Theorem loglorentzian_function_arity (x : ndarray) (params : list npfloat) :
  List.length params <> 3%nat ->
  loglorentzian_function x params = Raise ValueError.
Proof.
  intros H. destruct params as [| a [| b [| c [| d params]]]]; try reflexivity.
  cbn in H. lia.
Qed.

Lemma loglorentzian_function_arity_witness :
  loglorentzian_function [Fin 1] [Fin 1; Fin 2; Fin 3; Fin 4] = Raise ValueError.
Proof.
  apply (loglorentzian_function_arity [Fin 1] [Fin 1; Fin 2; Fin 3; Fin 4]).
  cbn. lia.
Defined.

(** With knee 0 the model is the plain power law: on positive frequencies
    the result is, in exact arithmetic, log10(a) − c·log10(x). *)
Theorem loglorentzian_function_no_knee (xs : list R) (a c : R) :
  0 < a -> Forall (fun v => 0 < v) xs ->
  loglorentzian_function (map Fin xs) [Fin a; Fin 0; Fin c]
  = Ok (map (fun v => Fin (ln a / ln 10 - c * (ln v / ln 10))) xs).
Proof.
  intros Ha Hx. rewrite loglorentzian_function_map, map_map.
  f_equal. apply map_ext_in. intros v Hin.
  rewrite Forall_forall in Hx.
  rewrite knee_model_log_real by (try lra; now apply Hx).
  f_equal. rewrite Rplus_0_l. unfold Rpower. rewrite ln_exp.
  unfold Rdiv. ring.
Qed.

Lemma loglorentzian_function_no_knee_witness :
  loglorentzian_function (map Fin [1; 2]) [Fin 10; Fin 0; Fin 2]
  = Ok (map (fun v => Fin (ln 10 / ln 10 - 2 * (ln v / ln 10))) [1; 2]).
Proof.
  apply (loglorentzian_function_no_knee [1; 2] 10 2); try lra.
  repeat constructor; lra.
Defined.

End FuncsMore.

(** * Further properties of group.py *)

Module GroupMore.

Import Group GroupProps.

Section Fitting.

Context {F : Type} {B : FOOOF_base F}.

Variables (freqs : list F) (freq_range : option (F * F))
  (file_name file_path : string).

(** *** Entering fit_group *)

Lemma fit_group_enter_open (st : state) (f : file) (w0 : World) :
  py_open (os_path_join file_path (file_name ++ ".json")%string) "w"%string (world st) = Done f w0 ->
  fit_group_enter true file_name file_path st
  = Done (Some f) (set_world w0 (set_group_results [] st)).
Proof.
  intros H. unfold fit_group_enter, bind, _reset_group_results, open_, ret.
  cbn [world set_group_results]. now rewrite H.
Qed.

(** *** The world along the loop *)

Lemma for_each_body_world_no_sink (psds : list (list F)) :
  forall st,
    world (state_of (for_each psds (fit_group_body freqs freq_range false None) st))
    = world st.
Proof.
  induction psds as [| psd psds IH]; intros st; [reflexivity |].
  cbn [for_each]. unfold bind at 1. unfold fit_group_body at 1.
  unfold bind at 1, self_fit.
  destruct (fit freqs psd freq_range (self_base st)) as [u s | e s];
    [| reflexivity].
  unfold bind, self_get_results, group_results_append, ret.
  now rewrite IH.
Qed.

Lemma for_each_body_world_sink (f : file) (psds : list (list F)) :
  forall st,
    world (state_of (for_each psds (fit_group_body freqs freq_range true (Some f)) st))
    = sink_after f freqs freq_range (self_base st) (world st) psds.
Proof.
  induction psds as [| psd psds IH]; intros st; [reflexivity |].
  cbn [for_each sink_after]. unfold bind at 1. unfold fit_group_body at 1.
  unfold bind at 1, self_fit.
  destruct (fit freqs psd freq_range (self_base st)) as [u s | e s];
    [| reflexivity].
  unfold bind, self_get_results, group_results_append, local, ret, self_save.
  cbn [self_base world set_group_results log_fit set_base].
  destruct (save f true s (world st)) as [u' w | e w]; [| reflexivity].
  now rewrite IH.
Qed.

(** Without a sink [fit_group] leaves everything outside the object as it
    was, whether it returns or raises: no file is opened or written. *)
Theorem fit_group_no_sink_world (psds : list (list F)) (st : state) :
  world (state_of (fit_group freqs psds freq_range false file_name file_path st))
  = world st.
Proof.
  unfold fit_group, fit_group_enter, bind at 1 2, _reset_group_results, ret.
  unfold bind at 1.
  pose proof (for_each_body_world_no_sink psds (set_group_results [] st)) as Hw.
  destruct (for_each psds _ (set_group_results [] st)) as [[] stk | e stk];
    cbn [state_of] in Hw; cbn; exact Hw.
Qed.

(** With a sink, a call that returns has saved each fitted object in turn,
    each before the next fit, and has then closed the file with success:
    the world it leaves is what that close made of the file after the
    saves. *)
Theorem fit_group_sink_world (psds : list (list F)) (st st1 : state)
    (f : file) (w0 : World) :
  py_open (os_path_join file_path (file_name ++ ".json")%string) "w"%string (world st) = Done f w0 ->
  fit_group freqs psds freq_range true file_name file_path st = Done tt st1 ->
  exists u,
    py_flush_close f (sink_after f freqs freq_range (self_base st) w0 psds)
    = Done u (world st1).
Proof.
  intros Hopen H.
  pose proof (for_each_body_world_sink f psds
                (set_world w0 (set_group_results [] st))) as Hw.
  cbn [self_base world set_world set_group_results] in Hw.
  unfold fit_group in H. unfold bind at 1 in H.
  rewrite (fit_group_enter_open st f w0 Hopen) in H.
  unfold bind at 1 in H.
  destruct (for_each psds _ (set_world w0 (set_group_results [] st)))
    as [[] stk | e stk]; [| discriminate].
  cbn [state_of] in Hw.
  unfold bind, self_reset_dat, local, ret, flush_close_ in H. cbn in H.
  rewrite Hw in H.
  destruct (py_flush_close f _) as [u w | e w]; [| discriminate].
  injection H as <-. exists u. reflexivity.
Qed.

(** When the sink cannot be opened, [fit_group] raises the error of [open]
    before any fit: the stored results have already been emptied, no
    spectrum is fitted and the base object is untouched. *)
Theorem fit_group_open_fails (psds : list (list F)) (st : state) (e : exn)
    (w' : World) :
  py_open (os_path_join file_path (file_name ++ ".json")%string) "w"%string (world st) = Fail e w' ->
  exists st',
    fit_group freqs psds freq_range true file_name file_path st = Fail e st'
    /\ group_results st' = []
    /\ fit_log st' = fit_log st
    /\ self_base st' = self_base st.
Proof.
  intros H. eexists. split.
  - unfold fit_group, fit_group_enter, bind at 1 2, _reset_group_results.
    unfold bind at 1, open_. cbn [world set_group_results]. rewrite H.
    reflexivity.
  - cbn. auto.
Qed.


(** A call that returns has fitted every spectrum of the batch once, in
    input order, and has cleared the data of the last spectrum from the
    base object with [_reset_dat(False)]. *)
Theorem fit_group_fits_each_once (psds : list (list F)) (save_dat : bool)
    (st st1 : state) :
  fit_group freqs psds freq_range save_dat file_name file_path st = Done tt st1 ->
  fit_log st1 = fit_log st ++ psds
  /\ self_base st1
     = _reset_dat false (base_after freqs freq_range (self_base st) psds).
Proof.
  intros H.
  pose proof (fit_group_results _ _ _ _ _ _ _ _ H) as (_ & _ & Hlog).
  split; [exact Hlog |].
  unfold fit_group in H. unfold bind at 1 in H.
  destruct (fit_group_enter save_dat file_name file_path st)
    as [f_obj st0 | e st0] eqn:He; [| discriminate].
  unfold bind at 1 in H.
  destruct (for_each psds _ st0) as [[] stk | e stk] eqn:Hl; [| discriminate].
  apply fit_group_enter_done in He as (_ & Hb0 & _).
  apply for_each_body_done in Hl as (_ & _ & Hbk & _).
  unfold bind, self_reset_dat, local, ret, raise, flush_close_ in H.
  destruct save_dat.
  - destruct f_obj as [f |]; [| discriminate]. cbn in H.
    destruct (py_flush_close f (world stk)) as [u w | e w]; [| discriminate].
    injection H as <-. cbn. now rewrite Hbk, Hb0.
  - injection H as <-. cbn. now rewrite Hbk, Hb0.
Qed.

(** Without a sink, [fit_group] returns exactly when every fit of the
    batch succeeds. *)
Theorem fit_group_returns_iff (psds : list (list F)) (st : state) :
  (exists st1,
      fit_group freqs psds freq_range false file_name file_path st = Done tt st1)
  <-> List.length (fit_each freqs freq_range (self_base st) psds)
      = List.length psds.
Proof.
  split.
  - intros (st1 & H).
    now pose proof (fit_group_results _ _ _ _ _ _ _ _ H) as (_ & Hlen & _).
  - intros Hlen. now apply fit_group_completes.
Qed.

End Fitting.

Section Loading.

Context {F : Type} {B : FOOOF_base F}.

Variables (file_name file_path : string).

Lemma load_loop_error (f_obj : file) (e : exn) (sw' : FOOOF * World)
    (s : FOOOF) (w : World) (rs : list (FOOOFResult F)) :
  e <> JSONDecodeError ->
  records_then_error f_obj e sw' s w rs ->
  forall (st : state) (fuel : nat),
    self_base st = s -> world st = w ->
    (List.length rs < fuel)%nat ->
    exists st',
      load_loop fuel f_obj st = Some (Fail e st')
      /\ group_results st' = group_results st ++ rs
      /\ self_base st' = fst sw'
      /\ world st' = snd sw'.
Proof.
  intros He. induction 1 as [s w Hload | s w u s1 w1 rs Hload Hrest IH];
    intros st fuel Hs Hw Hfuel.
  - destruct fuel as [| fuel]; [cbn in Hfuel; lia |].
    cbn [load_loop]. unfold bind at 1, self_load. rewrite Hs, Hw, Hload.
    destruct sw' as [s' w'].
    eexists. split.
    + destruct e; try reflexivity. contradiction.
    + cbn. now rewrite app_nil_r.
  - destruct fuel as [| fuel]; [cbn in Hfuel; lia |].
    cbn [load_loop]. unfold bind at 1, self_load. rewrite Hs, Hw, Hload.
    unfold bind, self_get_results, group_results_append.
    match goal with
    | |- context [load_loop fuel f_obj ?st1] =>
        destruct (IH st1 fuel) as (st' & Hrun & Hres & Hb & Hwd);
          [reflexivity | reflexivity | cbn in Hfuel; lia |]
    end.
    exists st'. split; [exact Hrun |].
    rewrite Hres. cbn. rewrite <- app_assoc. auto.
Qed.

(** Only JSONDecodeError ends the loading loop quietly.  When a load raises
    any other error after some complete records, that error leaves
    [load_group_results]; the file has been closed, the records loaded so
    far stay in the stored results, and the base object is not reset. *)
Theorem load_group_results_other_error (st : state) (f_obj : file)
    (w0 : World) (e : exn) (sw' : FOOOF * World)
    (rs : list (FOOOFResult F)) (fuel : nat) :
  py_open (os_path_join file_path (file_name ++ ".json")%string) "r"%string
    (world st) = Done f_obj w0 ->
  e <> JSONDecodeError ->
  records_then_error f_obj e sw' (self_base st) w0 rs ->
  (List.length rs < fuel)%nat ->
  exists st',
    load_group_results fuel file_name file_path st = Some (Fail e st')
    /\ group_results st' = rs
    /\ self_base st' = fst sw'
    /\ world st' = py_close f_obj (snd sw').
Proof.
  intros Hopen He Hfile Hfuel.
  unfold load_group_results, bind, _reset_group_results, open_.
  cbn [world set_group_results]. rewrite Hopen.
  match goal with
  | |- context [load_loop fuel f_obj ?st0] =>
      destruct (load_loop_error f_obj e sw' _ _ rs He Hfile st0 fuel)
        as (st1 & Hrun & Hres & Hb & Hw); [reflexivity | reflexivity | exact Hfuel |]
  end.
  rewrite Hrun. eexists. split; [reflexivity |].
  cbn. rewrite Hw. auto.
Qed.

(** When the file cannot be opened, the error of [open] leaves the call,
    and the results held before are gone: they are emptied before the
    file is opened. *)
Theorem load_group_results_open_fails (st : state) (e : exn) (w' : World)
    (fuel : nat) :
  py_open (os_path_join file_path (file_name ++ ".json")%string) "r"%string
    (world st) = Fail e w' ->
  exists st',
    load_group_results fuel file_name file_path st = Some (Fail e st')
    /\ group_results st' = []
    /\ self_base st' = self_base st.
Proof.
  intros Hopen.
  unfold load_group_results, bind, _reset_group_results, open_.
  cbn [world set_group_results]. rewrite Hopen.
  eexists. split; [reflexivity |]. cbn. auto.
Qed.

End Loading.

Section Extraction.

Context {F : Type} {B : FOOOF_base F}.

Variable np : numpy_version.

(** The column index is applied to what the call without index returns. *)
Lemma get_all_data_column (st : state) (name : string) (i : Z) :
  get_all_data np st name (Some i)
  = rbind (get_all_data np st name None) (fun out => take_column out i).
Proof.
  unfold get_all_data.
  destruct (comprehension _ (group_results st)) as [items | e]; [| reflexivity].
  cbn [rbind]. destruct (np_array np items) as [out | e]; [| reflexivity].
  cbn [rbind]. destruct (getitem out 0) as [out0 | e]; [| reflexivity].
  cbn [rbind].
  destruct (if is_ndarray out0 then _ else _) as [out' | e]; reflexivity.
Qed.

Lemma comprehension_over_map {X Y Z'} (f : Y -> result Z') (g : X -> Y)
    (xs : list X) :
  comprehension f (map g xs) = comprehension (fun x => f (g x)) xs.
Proof.
  induction xs as [| x xs IH]; cbn; [reflexivity | now rewrite IH].
Qed.

(** [np.array] either makes the array of the items or raises ValueError. *)
Lemma np_array_cases (items : list (pyval F)) :
  np_array np items = Ok items \/ np_array np items = Raise ValueError.
Proof.
  destruct items as [| v rest]; [now left |]. cbn [np_array].
  destruct (forallb _ rest); [now left |]. destruct np; [now left | now right].
Qed.

(** The table of all peaks, as a map over the peaks of the group. *)
Lemma peaks_table (st : state) :
  group_results st <> [] ->
  peaks_stackable np (group_results st) ->
  get_all_data np st "oscillations_params"%string None
  = Ok (Arr2 3 (map row3 (concat (map oscillations_params (group_results st))))).
Proof.
  intros Hne Hstack. unfold get_all_data.
  rewrite (comprehension_map _
             (fun dat => Arr2 3 (map row3 (oscillations_params dat))))
    by reflexivity.
  cbn [rbind]. rewrite (np_array_peaks np _ Hstack).
  destruct (group_results st) as [| r rs] eqn:Hrs; [contradiction |].
  cbn [rbind getitem nth_error map is_ndarray].
  pose proof (concat_rows_peaks (r :: rs)) as Hcat.
  assert (Heq : concat (map (fun dat => map row3 (oscillations_params dat)) (r :: rs))
                = map row3 (concat (map oscillations_params (r :: rs)))).
  { now rewrite concat_map, map_map. }
  rewrite Heq in Hcat. clear Heq.
  cbn [map ndim Nat.eqb] in Hcat.
  unfold np_concatenate0. cbn [ndim Nat.eqb].
  rewrite Hcat. reflexivity.
Qed.

(** A column index on a scalar field ("error", "r2") raises IndexError on
    every non-empty group: the extracted array has one dimension only. *)
Theorem get_all_data_scalar_column (st : state) (i : Z) :
  group_results st <> [] ->
  get_all_data np st "error"%string (Some i) = Raise IndexError
  /\ get_all_data np st "r2"%string (Some i) = Raise IndexError.
Proof.
  intros Hne. rewrite !get_all_data_column.
  rewrite (get_all_data_floats np st "error"%string error)
    by (reflexivity || exact Hne).
  rewrite (get_all_data_floats np st "r2"%string r2)
    by (reflexivity || exact Hne).
  split; reflexivity.
Qed.

(** Where numpy makes an array of the peak parameters (the legacy numpy,
    or spectra with equally many peaks), columns 0, 1 and 2 of the peak
    field are the centres, the amplitudes and the widths of all peaks of
    the group, spectrum after spectrum; column -1 is column 2. *)
Theorem get_all_data_peak_columns (st : state) :
  group_results st <> [] ->
  peaks_stackable np (group_results st) ->
  let peaks := concat (map oscillations_params (group_results st)) in
  get_all_data np st "oscillations_params"%string (Some 0%Z)
  = Ok (Arr1 (map (fun p => fst (fst p)) peaks))
  /\ get_all_data np st "oscillations_params"%string (Some 1%Z)
     = Ok (Arr1 (map (fun p => snd (fst p)) peaks))
  /\ get_all_data np st "oscillations_params"%string (Some 2%Z)
     = Ok (Arr1 (map (fun p => snd p) peaks))
  /\ get_all_data np st "oscillations_params"%string (Some (-1)%Z)
     = Ok (Arr1 (map (fun p => snd p) peaks)).
Proof.
  intros Hne Hstack peaks.
  rewrite !get_all_data_column, (peaks_table st Hne Hstack).
  fold peaks. cbn [rbind take_column].
  assert (Hcol : forall (j : nat) (g : F * F * F -> F),
             (forall p, getitem (row3 p) j = Ok (g p)) ->
             comprehension (fun row => getitem row j) (map row3 peaks)
             = Ok (map g peaks)).
  { intros j g Hg. rewrite comprehension_over_map.
    now apply comprehension_map. }
  repeat split.
  - change (column_index 3 0) with (@Ok nat 0%nat). cbn [rbind].
    rewrite (Hcol 0%nat (fun p => fst (fst p))); [reflexivity |].
    now intros [[c a] w].
  - change (column_index 3 1) with (@Ok nat 1%nat). cbn [rbind].
    rewrite (Hcol 1%nat (fun p => snd (fst p))); [reflexivity |].
    now intros [[c a] w].
  - change (column_index 3 2) with (@Ok nat 2%nat). cbn [rbind].
    rewrite (Hcol 2%nat (fun p => snd p)); [reflexivity |].
    now intros [[c a] w].
  - change (column_index 3 (-1)) with (@Ok nat 2%nat). cbn [rbind].
    rewrite (Hcol 2%nat (fun p => snd p)); [reflexivity |].
    now intros [[c a] w].
Qed.

(** Where numpy makes an array of the peak parameters, a column index
    outside -3 .. 2 on the peak field raises IndexError, even when the
    group has no peak at all. *)
Theorem get_all_data_peak_column_out_of_range (st : state) (i : Z) :
  group_results st <> [] ->
  peaks_stackable np (group_results st) ->
  (3 <= i \/ i < -3)%Z ->
  get_all_data np st "oscillations_params"%string (Some i) = Raise IndexError.
Proof.
  intros Hne Hstack Hi.
  rewrite get_all_data_column, (peaks_table st Hne Hstack).
  cbn [rbind take_column]. unfold column_index.
  replace ((0 <=? i)%Z && (i <? Z.of_nat 3)%Z) with false
    by (symmetry; apply andb_false_iff; destruct Hi;
        [right; apply Z.ltb_ge | left; apply Z.leb_gt]; cbn; lia).
  replace ((i <? 0)%Z && (- Z.of_nat 3 <=? i)%Z) with false
    by (symmetry; apply andb_false_iff; destruct Hi;
        [left; apply Z.ltb_ge | right; apply Z.leb_gt]; cbn; lia).
  reflexivity.
Qed.

Lemma concat_rows_background (n : nat) (rs : list (FOOOFResult F)) :
  Forall (fun dat => List.length (background_params dat) = n) rs ->
  concat_rows n
    (map (fun arr : pyval F => if ndim arr =? 1 then reshape_row arr else arr)
       (map (fun dat => Arr1 (background_params dat)) rs))
  = Ok (map background_params rs).
Proof.
  induction 1 as [| r rs Hr Hrs IH]; [reflexivity |].
  cbn [map concat_rows ndim Nat.eqb reshape_row].
  rewrite Hr, Nat.eqb_refl, IH. reflexivity.
Qed.

(** When all stored results have background parameters of one length [n]
    (all fitted in the same mode), the background field is extracted as an
    N x n array, one row per spectrum in input order. *)
Theorem get_all_data_background_rows (st : state) (n : nat) :
  group_results st <> [] ->
  Forall (fun dat => List.length (background_params dat) = n) (group_results st) ->
  get_all_data np st "background_params"%string None
  = Ok (Arr2 n (map background_params (group_results st))).
Proof.
  intros Hne Hall. unfold get_all_data.
  rewrite (comprehension_map _ (fun dat => Arr1 (background_params dat)))
    by reflexivity.
  cbn [rbind].
  rewrite (np_array_same_shape np [n]).
  2: { apply Forall_forall. intros u Hin.
       apply in_map_iff in Hin as (dat & <- & Hdat).
       rewrite Forall_forall in Hall. cbn [shape]. now rewrite (Hall dat Hdat). }
  pose proof (concat_rows_background n _ Hall) as Hcat.
  destruct (group_results st) as [| r rs] eqn:Hrs; [contradiction |].
  cbn [rbind getitem nth_error map is_ndarray].
  cbn [map] in Hcat.
  unfold np_concatenate0. cbn [ndim Nat.eqb reshape_row].
  cbn [ndim Nat.eqb reshape_row] in Hcat.
  inversion Hall as [| ? ? Hr Hrest]; subst.
  rewrite Hcat. reflexivity.
Qed.

Lemma concat_rows_mismatch (n : nat) (rs : list (FOOOFResult F)) :
  Exists (fun dat => List.length (background_params dat) <> n) rs ->
  concat_rows n
    (map (fun arr : pyval F => if ndim arr =? 1 then reshape_row arr else arr)
       (map (fun dat => Arr1 (background_params dat)) rs))
  = Raise ValueError.
Proof.
  induction rs as [| r rs IH]; intros Hex; [inversion Hex |].
  cbn [map concat_rows ndim Nat.eqb reshape_row].
  destruct (Nat.eqb_spec (List.length (background_params r)) n) as [Heq | Hneq];
    [| reflexivity].
  inversion Hex as [? ? Hbad | ? ? Hlater]; subst; [contradiction |].
  now rewrite IH.
Qed.

(** When some stored result has background parameters of another length
    than the first one (results of the two modes mixed), extracting the
    background field raises ValueError, with or without a column index. *)
Theorem get_all_data_background_mixed (st : state) (r : FOOOFResult F)
    (rs : list (FOOOFResult F)) (ind : option Z) :
  group_results st = r :: rs ->
  Exists (fun dat => List.length (background_params dat)
                     <> List.length (background_params r)) rs ->
  get_all_data np st "background_params"%string ind = Raise ValueError.
Proof.
  intros Hrs Hex. unfold get_all_data.
  rewrite (comprehension_map _ (fun dat => Arr1 (background_params dat)))
    by reflexivity.
  cbn [rbind].
  destruct (np_array_cases (map (fun dat => Arr1 (background_params dat))
                              (group_results st))) as [-> | ->];
    [| reflexivity].
  rewrite Hrs.
  cbn [rbind getitem nth_error map is_ndarray].
  unfold np_concatenate0. cbn [ndim Nat.eqb reshape_row concat_rows].
  rewrite Nat.eqb_refl.
  pose proof (concat_rows_mismatch _ rs Hex) as Hcat.
  rewrite Hcat. reflexivity.
Qed.

End Extraction.

(** *** The theorems at work on the concrete fitters *)

Local Open Scope Z_scope.

Lemma fit_group_sink_world_witness :
  let st := Demo.demo_state Demo.demo_file in
  let st1 := state_of (fit_group (B := Demo.demo_base) Demo.demo_freqs
                         Demo.demo_psds None true Demo.demo_name EmptyString st) in
  exists u,
    py_flush_close (FOOOF_base := Demo.demo_base) tt
      (sink_after (B := Demo.demo_base) tt Demo.demo_freqs None (self_base st)
         (Demo.mkWorld [] 0) Demo.demo_psds)
    = Done u (world st1).
Proof.
  intros st st1.
  apply (fit_group_sink_world (B := Demo.demo_base) Demo.demo_freqs None
           Demo.demo_name EmptyString Demo.demo_psds st st1 tt
           (Demo.mkWorld [] 0)).
  - vm_compute; reflexivity.
  - vm_compute; reflexivity.
Defined.

Lemma fit_group_open_fails_witness :
  let st := Flaky.flaky_state Flaky.small_disk in
  exists st',
    fit_group (B := Flaky.flaky_base) Demo.demo_freqs Demo.demo_psds None true
      Demo.demo_name "missing"%string st = Fail OSError st'
    /\ group_results st' = []
    /\ fit_log st' = fit_log st
    /\ self_base st' = self_base st.
Proof.
  intros st.
  apply (fit_group_open_fails (B := Flaky.flaky_base) Demo.demo_freqs None
           Demo.demo_name "missing"%string Demo.demo_psds st OSError
           Flaky.small_disk).
  vm_compute; reflexivity.
Defined.


Lemma fit_group_fits_each_once_witness :
  let st := Demo.demo_state Demo.demo_file in
  let st1 := state_of (fit_group (B := Demo.demo_base) Demo.demo_freqs
                         Demo.demo_psds None true Demo.demo_name EmptyString st) in
  fit_log st1 = fit_log st ++ Demo.demo_psds
  /\ self_base st1
     = _reset_dat false
         (base_after Demo.demo_freqs None (self_base st) Demo.demo_psds).
Proof.
  intros st st1.
  apply (fit_group_fits_each_once (B := Demo.demo_base) Demo.demo_freqs None
           Demo.demo_name EmptyString Demo.demo_psds true st st1).
  vm_compute; reflexivity.
Defined.

Lemma load_group_results_other_error_witness :
  let st := Flaky.flaky_state Flaky.incomplete_file in
  let r := Demo.demo_result [4; 7; 2] in
  let w' := Flaky.mkDisk (Flaky.content Flaky.incomplete_file) 2 5 true in
  exists st',
    load_group_results (B := Flaky.flaky_base) 2 Demo.demo_name EmptyString st
    = Some (Fail KeyError st')
    /\ group_results st' = [r]
    /\ self_base st' = fst (r, w')
    /\ world st' = py_close (FOOOF_base := Flaky.flaky_base) tt (snd (r, w')).
Proof.
  intros st r w'.
  apply (load_group_results_other_error (B := Flaky.flaky_base) Demo.demo_name
           EmptyString st tt
           (Flaky.mkDisk (Flaky.content Flaky.incomplete_file) 0 5 true)
           KeyError (r, w') [r] 2).
  - vm_compute; reflexivity.
  - discriminate.
  - exact (rte_record (B := Flaky.flaky_base) tt KeyError (r, w')
             (Demo.demo_result [])
             (Flaky.mkDisk (Flaky.content Flaky.incomplete_file) 0 5 true) tt r
             (Flaky.mkDisk (Flaky.content Flaky.incomplete_file) 1 5 true) []
             eq_refl
             (rte_error (B := Flaky.flaky_base) tt KeyError (r, w') r
                (Flaky.mkDisk (Flaky.content Flaky.incomplete_file) 1 5 true)
                eq_refl)).
  - cbn. lia.
Defined.

Lemma load_group_results_open_fails_witness :
  let st := Flaky.flaky_state Flaky.incomplete_file in
  exists st',
    load_group_results (B := Flaky.flaky_base) 5 Demo.demo_name
      "missing"%string st = Some (Fail OSError st')
    /\ group_results st' = []
    /\ self_base st' = self_base st.
Proof.
  intros st.
  apply (load_group_results_open_fails (B := Flaky.flaky_base) Demo.demo_name
           "missing"%string st OSError Flaky.incomplete_file 5).
  vm_compute; reflexivity.
Defined.

Lemma get_all_data_scalar_column_witness :
  get_all_data Numpy_strict (Demo.demo_state Demo.demo_file) "error"%string
    (Some 0)
  = Raise IndexError
  /\ get_all_data Numpy_strict (Demo.demo_state Demo.demo_file) "r2"%string
       (Some 0)
     = Raise IndexError.
Proof.
  apply (get_all_data_scalar_column Numpy_strict
           (Demo.demo_state Demo.demo_file) 0).
  discriminate.
Defined.

Lemma get_all_data_peak_columns_witness :
  let st := state_of (fit_group (B := Demo.demo_base) Demo.demo_freqs
                        Demo.demo_psds None false Demo.demo_name EmptyString
                        (Demo.demo_state Demo.demo_file)) in
  let peaks := concat (map oscillations_params (group_results st)) in
  get_all_data Numpy_legacy st "oscillations_params"%string (Some 0)
  = Ok (Arr1 (map (fun p => fst (fst p)) peaks))
  /\ get_all_data Numpy_legacy st "oscillations_params"%string (Some 1)
     = Ok (Arr1 (map (fun p => snd (fst p)) peaks))
  /\ get_all_data Numpy_legacy st "oscillations_params"%string (Some 2)
     = Ok (Arr1 (map (fun p => snd p) peaks))
  /\ get_all_data Numpy_legacy st "oscillations_params"%string (Some (-1))
     = Ok (Arr1 (map (fun p => snd p) peaks)).
Proof.
  intros st.
  apply (get_all_data_peak_columns Numpy_legacy st).
  - vm_compute. discriminate.
  - left. reflexivity.
Defined.

Lemma get_all_data_peak_column_out_of_range_witness :
  let st := state_of (fit_group (B := Demo.demo_base) Demo.demo_freqs
                        Demo.demo_even_psds None false Demo.demo_name EmptyString
                        (Demo.demo_state Demo.demo_file)) in
  get_all_data Numpy_strict st "oscillations_params"%string (Some 3)
  = Raise IndexError.
Proof.
  intros st.
  apply (get_all_data_peak_column_out_of_range Numpy_strict st 3).
  - vm_compute. discriminate.
  - right. exists 1%nat. vm_compute. repeat constructor.
  - left. lia.
Defined.

Lemma get_all_data_background_rows_witness :
  let st := state_of (fit_group (B := Demo.demo_base) Demo.demo_freqs
                        Demo.demo_psds None false Demo.demo_name EmptyString
                        (Demo.demo_state Demo.demo_file)) in
  get_all_data Numpy_strict st "background_params"%string None
  = Ok (Arr2 2 (map background_params (group_results st))).
Proof.
  intros st.
  apply (get_all_data_background_rows Numpy_strict st 2).
  - vm_compute. discriminate.
  - vm_compute. repeat constructor.
Defined.

Lemma get_all_data_background_mixed_witness :
  get_all_data Numpy_strict Demo.demo_mixed "background_params"%string (Some 1)
  = Raise ValueError.
Proof.
  apply (get_all_data_background_mixed Numpy_strict Demo.demo_mixed
           (mkFOOOFResult [1; 2] [] 1 1) [mkFOOOFResult [1; 2; 3] [] 1 1]
           (Some 1)).
  - reflexivity.
  - apply Exists_cons_hd. cbn. lia.
Defined.

End GroupMore.
